(** * billie-crm event processor: a shallow embedding and its properties

    The development follows [event-processor/src/billie_servicing/processor.py]
    and [event-processor/scripts/subst-sdk-requirements.py].

    Conventions of the embedding.
    - A Python [str] is a Rocq [string] holding the UTF-8 encoding of the text
      (a lone surrogate, which [json.loads] can produce, as its three bytes);
      [bytes] are Rocq [string]s as well, and [bytes.decode()] is the identity
      on well-formed UTF-8 and raises [UnicodeDecodeError] otherwise.
      [str.strip] and [int] see the characters of the text: the Unicode
      whitespace, and the decimal digits of every script.
    - Python exceptions are values [exn] carrying their class; [except]
      clauses are class tests along the class hierarchy.
    - What depends on the interpreter at hand is read from an [Interpreter]:
      the nesting that the recursion limit leaves to [json.loads] where it is
      called, [sys.get_int_max_str_digits()], and the decimal digits of the
      Unicode database.
    - Every call that leaves the process (broker, document store, SDK parsers,
      handlers, the clock) is answered by an arbitrary environment, and is
      recorded in a trace together with its answer.
    - The script reads and writes the regular files of a file system, given
      by inodes; text is read and written as UTF-8 (what [open] does under a
      UTF-8 locale or in UTF-8 mode), without newline translation on writing
      (POSIX).
    - Memory exhaustion, failing writes and the effects of [print] and of the
      logger are not modelled. *)

From Stdlib Require Import ZArith Lia Bool Ascii String List.
From stdpp Require Import base option list strings pretty gmap.

Local Open Scope string_scope.
Local Open Scope Z_scope.

(** ** Python basics: exceptions, results, strings, values *)

Module Py.

(** The exception classes the two programs raise or catch, with the classes
    between them and [BaseException]. [UserError] stands for any other class
    derived directly from [Exception] (what a handler or an SDK parser may
    raise). *)
Inductive exc_class : Type :=
| BaseException
| Exception
| CancelledError                    (* asyncio.CancelledError *)
| SystemExit
| RuntimeError
| RecursionError
| ValueError
| JSONDecodeError                   (* json.JSONDecodeError *)
| UnicodeError
| UnicodeDecodeError
| AttributeError
| OSError
| FileNotFoundError
| RedisError                        (* redis.exceptions.RedisError *)
| RedisConnectionError              (* redis.exceptions.ConnectionError *)
| RedisTimeoutError                 (* redis.exceptions.TimeoutError *)
| RedisResponseError                (* redis.exceptions.ResponseError *)
| PyMongoError                      (* pymongo.errors.PyMongoError *)
| MongoConfigurationError           (* pymongo.errors.ConfigurationError *)
| MongoConnectionFailure            (* pymongo.errors.ConnectionFailure *)
| MongoAutoReconnect                (* pymongo.errors.AutoReconnect *)
| MongoServerSelectionTimeoutError  (* pymongo.errors.ServerSelectionTimeoutError *)
| MongoOperationFailure             (* pymongo.errors.OperationFailure *)
| UserError (name : string).

#[global] Instance exc_class_eq_dec : EqDecision exc_class.
Proof. solve_decision. Defined.

(** The direct base class. *)
Definition base_of (c : exc_class) : option exc_class :=
  match c with
  | BaseException => None
  | Exception | CancelledError | SystemExit => Some BaseException
  | ValueError | AttributeError | OSError | RedisError | PyMongoError
  | UserError _ => Some Exception
  | RuntimeError => Some Exception
  | RecursionError => Some RuntimeError
  | JSONDecodeError | UnicodeError => Some ValueError
  | UnicodeDecodeError => Some UnicodeError
  | FileNotFoundError => Some OSError
  | RedisConnectionError | RedisTimeoutError | RedisResponseError => Some RedisError
  | MongoConfigurationError | MongoConnectionFailure | MongoOperationFailure =>
      Some PyMongoError
  | MongoAutoReconnect => Some MongoConnectionFailure
  | MongoServerSelectionTimeoutError => Some MongoAutoReconnect
  end.

Fixpoint issubclass_upto (depth : nat) (c d : exc_class) : bool :=
  if decide (c = d) then true
  else match depth with
       | O => false
       | S depth' =>
           match base_of c with
           | Some b => issubclass_upto depth' b d
           | None => false
           end
       end.

(** The hierarchy above is at most six classes deep. *)
Definition issubclass : exc_class -> exc_class -> bool := issubclass_upto 6.

Record exn : Type := MkExn { exc_cls : exc_class; exc_msg : string }.

(** [isinstance(e, c)] *)
Definition isinstance (e : exn) (c : exc_class) : bool := issubclass (exc_cls e) c.

(** [isinstance(e, (c1, ..., cn))], the test of [except (c1, ..., cn)] *)
Definition isinstance_any (e : exn) (cs : list exc_class) : bool :=
  existsb (isinstance e) cs.

(** [str(e)] *)
Definition str_of_exn (e : exn) : string := exc_msg e.

(** What running a piece of code gives: a value, an exception, or no answer
    within the allotted number of loop iterations. *)
Inductive result (A : Type) : Type :=
| Returns (a : A)
| Raises (e : exn)
| Diverges.
Arguments Returns {A} a.
Arguments Raises {A} e.
Arguments Diverges {A}.

Definition rbind {A B} (r : result A) (k : A -> result B) : result B :=
  match r with
  | Returns a => k a
  | Raises e => Raises e
  | Diverges => Diverges
  end.

(** [try: body except <clauses>]: [clauses e] is the body of the first
    clause that matches [e], if one does. *)
Definition rtry {A} (body : result A) (clauses : exn -> option (result A)) : result A :=
  match body with
  | Raises e => match clauses e with Some h => h | None => Raises e end
  | r => r
  end.

(** *** Characters and strings *)

Definition code (c : ascii) : Z := Z.of_nat (nat_of_ascii c).

Definition between (lo hi : Z) (c : ascii) : bool := (lo <=? code c) && (code c <=? hi).

Definition is_digit (c : ascii) : bool := between 48 57 c.

Definition digit_value (c : ascii) : Z := code c - 48.

(** The double quote. *)
Definition dquote : ascii := ascii_of_nat 34.

Definition chr (n : Z) : ascii := ascii_of_nat (Z.to_nat n).

(** A continuation byte of UTF-8. *)
Definition cont (c : ascii) : bool := between 128 191 c.

(** The six bits a continuation byte carries. *)
Definition low6 (c : ascii) : Z := code c - 128.

(** The second byte that the lead byte [a] of a three-byte sequence admits;
    the surrogates U+D800..U+DFFF (lead byte 237, second byte from 160) are
    characters of a [str]. *)
Definition second_of_three (a b : ascii) : bool :=
  if code a =? 224 then between 160 191 b else cont b.

(** The second byte that the lead byte [a] of a four-byte sequence admits. *)
Definition second_of_four (a b : ascii) : bool :=
  if code a =? 240 then between 144 191 b
  else if code a =? 244 then between 128 143 b
  else cont b.

(** The characters of a [str]: each code point with the bytes that encode
    it.  A byte that starts no character is given with the code point -1. *)
Fixpoint chars (s : string) : list (Z * string) :=
  match s with
  | EmptyString => []
  | String a r =>
      if code a <? 128 then (code a, String a "") :: chars r
      else
        match r with
        | String b r2 =>
            if between 194 223 a && cont b
            then ((code a - 192) * 64 + low6 b, String a (String b "")) :: chars r2
            else
              match r2 with
              | String c r3 =>
                  if between 224 239 a && second_of_three a b && cont c
                  then (((code a - 224) * 64 + low6 b) * 64 + low6 c,
                        String a (String b (String c ""))) :: chars r3
                  else
                    match r3 with
                    | String d r4 =>
                        if between 240 244 a && second_of_four a b && cont c && cont d
                        then ((((code a - 240) * 64 + low6 b) * 64 + low6 c) * 64 + low6 d,
                              String a (String b (String c (String d "")))) :: chars r4
                        else (-1, String a "") :: chars r
                    | EmptyString => (-1, String a "") :: chars r
                    end
              | EmptyString => (-1, String a "") :: chars r
              end
        | EmptyString => (-1, String a "") :: chars r
        end
  end.

(** The text that a list of characters makes. *)
Definition text_of (cs : list (Z * string)) : string :=
  fold_right (fun c t => c.2 ++ t) "" cs.

(** The code points for which [str.isspace] holds: TAB, LF, VT, FF, CR, the
    separators FS, GS, RS, US, the space, NEL, the no-break space, and the
    space, line and paragraph separators of the other planes. *)
Definition is_space (cp : Z) : bool :=
  ((9 <=? cp) && (cp <=? 13)) || ((28 <=? cp) && (cp <=? 32))
  || (cp =? 133) || (cp =? 160) || (cp =? 5760)
  || ((8192 <=? cp) && (cp <=? 8202))
  || (cp =? 8232) || (cp =? 8233) || (cp =? 8239) || (cp =? 8287) || (cp =? 12288).

Fixpoint lstrip_chars (cs : list (Z * string)) : list (Z * string) :=
  match cs with
  | c :: cs' => if is_space c.1 then lstrip_chars cs' else cs
  | [] => []
  end.

Definition rstrip_chars (cs : list (Z * string)) : list (Z * string) :=
  rev (lstrip_chars (rev cs)).

(** [s.lstrip()], [s.rstrip()] *)
Definition lstrip (s : string) : string := text_of (lstrip_chars (chars s)).
Definition rstrip (s : string) : string := text_of (rstrip_chars (chars s)).

(** [s.strip()] *)
Definition strip (s : string) : string :=
  text_of (rstrip_chars (lstrip_chars (chars s))).

(** [s.startswith(p)] *)
Definition startswith (s p : string) : bool := String.prefix p s.

(** [p in s] *)
Fixpoint contains (p s : string) : bool :=
  String.prefix p s ||
  match s with
  | String _ s' => contains p s'
  | EmptyString => false
  end.

(** [s.replace(old, new)] for a non-empty [old]: occurrences are replaced
    from the left and do not overlap; [skip] counts the characters of an
    occurrence that remain to be dropped. *)
Fixpoint replace_from (old new : string) (skip : nat) (s : string) : string :=
  match s with
  | EmptyString => EmptyString
  | String c s' =>
      match skip with
      | S k => replace_from old new k s'
      | O =>
          if String.prefix old s
          then new ++ replace_from old new (Nat.pred (String.length old)) s'
          else String c (replace_from old new O s')
      end
  end.

Definition replace (old new s : string) : string := replace_from old new O s.

(** *** The interpreter *)

(** What the programs see of the interpreter that runs them.
    - [recursion_budget]: how many arrays and objects, one inside the other,
      [json.loads] can enter where the program calls it before the recursion
      limit is reached (the limit less the frames in use).
    - [int_max_str_digits]: [sys.get_int_max_str_digits()], 0 for no limit;
      interpreters without the limit behave as with 0.
    - [unicode_decimal]: [unicodedata.decimal] on a code point from 127 on,
      where it is defined. *)
Record Interpreter : Type := MkInterpreter {
  recursion_budget : nat;
  int_max_str_digits : Z;
  unicode_decimal : Z -> option Z
}.

(** *** [int(s)] on a string *)

(** [Py_ISSPACE]: the whitespace of the C locale. *)
Definition c_space (c : ascii) : bool := between 9 13 c || (code c =? 32).

(** [_PyUnicode_TransformDecimalAndSpaceToASCII]: characters below 127 are
    kept, whitespace becomes a space, a decimal digit the ASCII digit of its
    value; at any other character the text is closed with a question mark. *)
Fixpoint to_ascii (py : Interpreter) (cps : list Z) : string :=
  match cps with
  | [] => ""
  | cp :: rest =>
      if (0 <=? cp) && (cp <? 127) then String (chr cp) (to_ascii py rest)
      else if is_space cp then String " " (to_ascii py rest)
      else
        match (if 0 <=? cp then unicode_decimal py cp else None) with
        | Some d =>
            if (0 <=? d) && (d <=? 9) then String (chr (48 + d)) (to_ascii py rest)
            else "?"
        | None => "?"
        end
  end.

Fixpoint skip_c_space (s : string) : string :=
  match s with
  | String c s' => if c_space c then skip_c_space s' else s
  | EmptyString => EmptyString
  end.

(** The digits of a literal, single underscores between them allowed: the
    value, the number of digits and what follows; [None] for two underscores
    in a row or one at the end.  [prev_us] tells that the previous character
    was an underscore. *)
Fixpoint scan_digits (acc digits : Z) (prev_us : bool) (s : string)
  : option (Z * Z * string) :=
  match s with
  | EmptyString => if prev_us then None else Some (acc, digits, EmptyString)
  | String c s' =>
      if is_digit c then scan_digits (10 * acc + digit_value c) (digits + 1) false s'
      else if decide (c = "_"%char)
           then (if prev_us then None else scan_digits acc digits true s')
           else (if prev_us then None else Some (acc, digits, s))
  end.

(** [str(e)] of CPython ends with [repr(s)], cut at 200 characters; here the
    operand is given as it is.  Neither program reads the message. *)
Definition invalid_literal (s : string) : exn :=
  MkExn ValueError ("invalid literal for int() with base 10: " ++ s).

Definition too_many_digits (limit digits : Z) : exn :=
  MkExn ValueError
    ("Exceeds the limit (" ++ pretty limit
     ++ " digits) for integer string conversion: value has " ++ pretty digits
     ++ " digits; use sys.set_int_max_str_digits() to increase the limit").

(** The test of [PyLong_FromString] on the number of digits of a literal. *)
Definition over_digit_limit (py : Interpreter) (digits : Z) : bool :=
  (640 <? digits) && (0 <? int_max_str_digits py) && (int_max_str_digits py <? digits).

(** [PyLong_FromString] in base 10 on the transformed text [t] of [s]. *)
Definition long_from_string (py : Interpreter) (s t : string) : result Z :=
  let t1 := skip_c_space t in
  let '(sign, t2) :=
    match t1 with
    | String "+"%char r => (1, r)
    | String "-"%char r => (-1, r)
    | _ => (1, t1)
    end in
  match t2 with
  | String "_"%char _ => Raises (invalid_literal s)
  | _ =>
      match scan_digits 0 0 false t2 with
      | None => Raises (invalid_literal s)
      | Some (n, digits, rest) =>
          if over_digit_limit py digits
          then Raises (too_many_digits (int_max_str_digits py) digits)
          else if digits =? 0 then Raises (invalid_literal s)
          else match skip_c_space rest with
               | EmptyString => Returns (sign * n)
               | _ => Raises (invalid_literal s)
               end
      end
  end.

(** [int(s)] *)
Definition int_of_str (py : Interpreter) (s : string) : result Z :=
  long_from_string py s (to_ascii py (map fst (chars s))).

(** *** [bytes.decode()] (UTF-8, strict) *)

Fixpoint utf8_valid (s : string) : bool :=
  match s with
  | EmptyString => true
  | String a r =>
      if between 0 127 a then utf8_valid r
      else match r with
      | String b r2 =>
          if between 194 223 a then between 128 191 b && utf8_valid r2
          else match r2 with
          | String c r3 =>
              if between 224 239 a then
                (if decide (code a = 224) then between 160 191 b
                 else if decide (code a = 237) then between 128 159 b
                 else between 128 191 b)
                && between 128 191 c && utf8_valid r3
              else match r3 with
              | String d r4 =>
                  between 240 244 a
                  && (if decide (code a = 240) then between 144 191 b
                      else if decide (code a = 244) then between 128 143 b
                      else between 128 191 b)
                  && between 128 191 c && between 128 191 d && utf8_valid r4
              | EmptyString => false
              end
          | EmptyString => false
          end
      | EmptyString => false
      end
  end.

Definition decode (b : string) : result string :=
  if utf8_valid b then Returns b
  else Raises (MkExn UnicodeDecodeError "'utf-8' codec can't decode bytes").

(** *** Values *)

(** The values that field maps hold and that [json.loads] builds.  A float
    is kept as the text of its literal; [PObj] is a reference to an opaque
    object (a client, a database handle, what an SDK parser returns). *)
#[warnings="-register-all"]
Inductive pyval : Type :=
| PNone
| PBool (b : bool)
| PInt (z : Z)
| PFloat (literal : string)
| PStr (s : string)
| PList (l : list pyval)
| PDict (items : list (string * pyval))
| PObj (ref : nat).

Definition is_str (v : pyval) : bool := match v with PStr _ => true | _ => false end.
Definition is_none (v : pyval) : bool := match v with PNone => true | _ => false end.
Definition is_list (v : pyval) : bool := match v with PList _ => true | _ => false end.

(** [v == ""] *)
Definition eq_empty_str (v : pyval) : bool :=
  match v with PStr EmptyString => true | _ => false end.

(** The digits that [s] starts with: the value they give after [acc], their
    number, and what follows. *)
Fixpoint leading_digits (acc n : Z) (s : string) : Z * Z * string :=
  match s with
  | String c s' =>
      if is_digit c then leading_digits (10 * acc + digit_value c) (n + 1) s'
      else (acc, n, s)
  | EmptyString => (acc, n, EmptyString)
  end.

(** Whether the float of a literal is zero: its digits are all zero, or its
    value is at most [2^-1075], half the least positive float.  The literals
    are those of JSON; [NaN] and the infinities are not zero. *)
Definition float_is_zero (literal : string) : bool :=
  let body := match literal with String "-"%char r => r | _ => literal end in
  let '(i, ni, r1) := leading_digits 0 0 body in
  let '(m, nf, r2) :=
    match r1 with
    | String "."%char r => leading_digits i 0 r
    | _ => (i, 0, r1)
    end in
  let '(x, nx, r3) :=
    match r2 with
    | String e r =>
        if bool_decide (e = "e"%char) || bool_decide (e = "E"%char) then
          match r with
          | String "+"%char r' => leading_digits 0 0 r'
          | String "-"%char r' => let '(x, nx, r3) := leading_digits 0 0 r' in (- x, nx, r3)
          | _ => leading_digits 0 0 r
          end
        else (0, 1, r2)
    | EmptyString => (0, 1, r2)
    end in
  (0 <? ni) && (0 <? nx) && bool_decide (r3 = EmptyString)
  && ((m =? 0) || ((x - nf <? 0) && (m * 2 ^ 1075 <=? 10 ^ (nf - x)))).

(** [bool(v)] *)
Definition truthy (v : pyval) : bool :=
  match v with
  | PNone => false
  | PBool b => b
  | PInt z => negb (z =? 0)
  | PFloat lit => negb (float_is_zero lit)
  | PStr s => negb (String.eqb s "")
  | PList l => match l with [] => false | _ => true end
  | PDict items => match items with [] => false | _ => true end
  | PObj _ => true
  end.

End Py.

(** ** [json.loads] on a string

    The decoder of the standard [json] module (strict mode, default hooks, the
    scanner of the C accelerator): [scan_once] with its string, number, array
    and object scanners.  The scanners recurse on the nesting of the document.
    [depth] is the number of arrays and objects that may still be entered
    before the interpreter raises [RecursionError]; [fuel] bounds the number
    of nested calls of the definition, and [loads] gives a bound no document
    can exceed. *)

Module Json.
Import Py.

Definition error (msg : string) : exn := MkExn JSONDecodeError msg.

(** What [Py_EnterRecursiveCall] raises in the scanner of an array or of an
    object. *)
Definition recursion_error (what : string) : exn :=
  MkExn RecursionError
    ("maximum recursion depth exceeded while decoding a JSON " ++ what
     ++ " from a unicode string").

(** The UTF-8 encoding of a code point (surrogates included, as three bytes). *)
Definition utf8_encode (cp : Z) : string :=
  if cp <? 128 then String (chr cp) ""
  else if cp <? 2048 then
    String (chr (192 + cp / 64)) (String (chr (128 + cp mod 64)) "")
  else if cp <? 65536 then
    String (chr (224 + cp / 4096))
      (String (chr (128 + (cp / 64) mod 64)) (String (chr (128 + cp mod 64)) ""))
  else
    String (chr (240 + cp / 262144))
      (String (chr (128 + (cp / 4096) mod 64))
         (String (chr (128 + (cp / 64) mod 64)) (String (chr (128 + cp mod 64)) ""))).

Definition hex_value (c : ascii) : option Z :=
  if is_digit c then Some (code c - 48)
  else if between 65 70 c then Some (code c - 55)
  else if between 97 102 c then Some (code c - 87)
  else None.

Definition hex4 (a b c d : ascii) : option Z :=
  x ← hex_value a; y ← hex_value b; z ← hex_value c; w ← hex_value d;
  Some (((x * 16 + y) * 16 + z) * 16 + w).

(** The characters a backslash may introduce, [u] apart. *)
Definition simple_escape (c : ascii) : option ascii :=
  if decide (c = dquote) then Some dquote
  else if decide (c = "\"%char) then Some "\"%char
  else if decide (c = "/"%char) then Some "/"%char
  else if decide (c = "b"%char) then Some (chr 8)
  else if decide (c = "f"%char) then Some (chr 12)
  else if decide (c = "n"%char) then Some (chr 10)
  else if decide (c = "r"%char) then Some (chr 13)
  else if decide (c = "t"%char) then Some (chr 9)
  else None.

Definition prepend (p : string) (r : result (string * string)) : result (string * string) :=
  rbind r (fun '(s, rest) => Returns (p ++ s, rest)).

(** [scanstring]: the text after the opening quote, up to the closing one;
    returns the decoded string and what follows the closing quote. *)
Fixpoint scanstring (s : string) : result (string * string) :=
  match s with
  | EmptyString => Raises (error "Unterminated string starting at")
  | String c r =>
      if decide (c = dquote) then Returns ("", r)
      else if decide (c = "\"%char) then
        match r with
        | EmptyString => Raises (error "Unterminated string starting at")
        | String e r1 =>
            if decide (e = "u"%char) then
              match r1 with
              | String h1 (String h2 (String h3 (String h4 r2))) =>
                  match hex4 h1 h2 h3 h4 with
                  | None => Raises (error "Invalid \uXXXX escape")
                  | Some uni =>
                      if (55296 <=? uni) && (uni <=? 56319) then
                        match r2 with
                        | String bs (String u r3) =>
                            if bool_decide (bs = "\"%char) && bool_decide (u = "u"%char) then
                              match r3 with
                              | String g1 (String g2 (String g3 (String g4 r4))) =>
                                  match hex4 g1 g2 g3 g4 with
                                  | None => Raises (error "Invalid \uXXXX escape")
                                  | Some uni2 =>
                                      if (56320 <=? uni2) && (uni2 <=? 57343) then
                                        prepend
                                          (utf8_encode
                                             (65536 + ((uni - 55296) * 1024 + (uni2 - 56320))))
                                          (scanstring r4)
                                      else prepend (utf8_encode uni) (scanstring r2)
                                  end
                              | _ => Raises (error "Invalid \uXXXX escape")
                              end
                            else prepend (utf8_encode uni) (scanstring r2)
                        | _ => prepend (utf8_encode uni) (scanstring r2)
                        end
                      else prepend (utf8_encode uni) (scanstring r2)
                  end
              | _ => Raises (error "Invalid \uXXXX escape")
              end
            else
              match simple_escape e with
              | Some ch => prepend (String ch "") (scanstring r1)
              | None => Raises (error "Invalid \escape")
              end
        end
      else if code c <? 32 then Raises (error "Invalid control character at")
      else prepend (String c "") (scanstring r)
  end.

(** JSON whitespace: space, TAB, LF, CR. *)
Definition is_ws (c : ascii) : bool :=
  bool_decide (code c = 32) || bool_decide (code c = 9)
  || bool_decide (code c = 10) || bool_decide (code c = 13).

Fixpoint skip_ws (s : string) : string :=
  match s with
  | String c s' => if is_ws c then skip_ws s' else s
  | EmptyString => EmptyString
  end.

(** The longest prefix of digits, and the rest. *)
Fixpoint take_digits (s : string) : string * string :=
  match s with
  | String c s' =>
      if is_digit c then let '(ds, rest) := take_digits s' in (String c ds, rest)
      else (EmptyString, s)
  | EmptyString => (EmptyString, EmptyString)
  end.

Fixpoint decimal_value (acc : Z) (ds : string) : Z :=
  match ds with
  | String c ds' => decimal_value (10 * acc + digit_value c) ds'
  | EmptyString => acc
  end.

(** An optional minus sign, then a zero or a digit string without leading
    zero; gives the text matched and the rest. *)
Definition match_integer (s : string) : option (string * string) :=
  let '(sign, r) :=
    match s with
    | String "-"%char r => ("-", r)
    | _ => ("", s)
    end in
  match r with
  | String c r1 =>
      if decide (c = "0"%char) then Some (sign ++ "0", r1)
      else if is_digit c then
        let '(ds, r2) := take_digits r1 in Some (sign ++ String c ds, r2)
      else None
  | EmptyString => None
  end.

(** An optional fraction: a dot and at least one digit. *)
Definition match_fraction (s : string) : string * string :=
  match s with
  | String "."%char (String d r) =>
      if is_digit d then let '(ds, r') := take_digits r in ("." ++ String d ds, r')
      else ("", s)
  | _ => ("", s)
  end.

(** An optional exponent: [e] or [E], an optional sign, at least one digit. *)
Definition match_exponent (s : string) : string * string :=
  match s with
  | String e r =>
      if bool_decide (e = "e"%char) || bool_decide (e = "E"%char) then
        match r with
        | String x r1 =>
            if is_digit x then
              let '(ds, r') := take_digits r1 in (String e (String x ds), r')
            else if bool_decide (x = "+"%char) || bool_decide (x = "-"%char) then
              match r1 with
              | String d r2 =>
                  if is_digit d then
                    let '(ds, r') := take_digits r2 in
                    (String e (String x (String d ds)), r')
                  else ("", s)
              | EmptyString => ("", s)
              end
            else ("", s)
        | EmptyString => ("", s)
        end
      else ("", s)
  | EmptyString => ("", s)
  end.

(** [PyLong_FromString] on an integer literal: the conversion is refused
    with a [ValueError] when the literal has more digits than the interpreter
    allows. *)
Definition int_of_literal (py : Interpreter) (lit : string) : result Z :=
  let ds := match lit with String "-"%char ds => ds | _ => lit end in
  let digits := Z.of_nat (String.length ds) in
  if over_digit_limit py digits
  then Raises (too_many_digits (int_max_str_digits py) digits)
  else Returns (match lit with
                | String "-"%char _ => - decimal_value 0 ds
                | _ => decimal_value 0 ds
                end).

(** [match_number]: an integer literal gives an [int], one with a fraction or
    an exponent a [float]; [None] when no number starts here. *)
Definition match_number (py : Interpreter) (s : string)
  : option (result (pyval * string)) :=
  match match_integer s with
  | None => None
  | Some (int_part, r) =>
      let '(frac, r1) := match_fraction r in
      let '(exp, r2) := match_exponent r1 in
      match frac, exp with
      | EmptyString, EmptyString =>
          Some (rbind (int_of_literal py int_part) (fun n => Returns (PInt n, r2)))
      | _, _ => Some (Returns (PFloat (int_part ++ frac ++ exp), r2))
      end
  end.

(** [s[idx:idx+len(lit)] == lit], giving what follows. *)
Fixpoint strip_prefix (lit s : string) : option string :=
  match lit, s with
  | EmptyString, _ => Some s
  | String a lit', String b s' => if decide (a = b) then strip_prefix lit' s' else None
  | String _ _, EmptyString => None
  end.

(** [d[k] = v] on a dict kept in insertion order. *)
Fixpoint dict_set (k : string) (v : pyval) (items : list (string * pyval))
  : list (string * pyval) :=
  match items with
  | [] => [(k, v)]
  | (k', v') :: rest =>
      if decide (k' = k) then (k, v) :: rest else (k', v') :: dict_set k v rest
  end.

Definition expecting_value : exn := error "Expecting value".

(** Literals and numbers: the cases of [scan_once] that do not nest. *)
Definition scan_atom (py : Interpreter) (s : string) : result (pyval * string) :=
  match strip_prefix "null" s with Some r => Returns (PNone, r) | None =>
  match strip_prefix "true" s with Some r => Returns (PBool true, r) | None =>
  match strip_prefix "false" s with Some r => Returns (PBool false, r) | None =>
  match match_number py s with Some vr => vr | None =>
  match strip_prefix "NaN" s with Some r => Returns (PFloat "NaN", r) | None =>
  match strip_prefix "Infinity" s with Some r => Returns (PFloat "Infinity", r) | None =>
  match strip_prefix "-Infinity" s with Some r => Returns (PFloat "-Infinity", r) | None =>
  Raises expecting_value
  end end end end end end end.

Fixpoint scan_once (py : Interpreter) (fuel depth : nat) (s : string)
  : result (pyval * string) :=
  match fuel with
  | O => Diverges
  | S fuel' =>
      match s with
      | EmptyString => Raises expecting_value
      | String c r =>
          if decide (c = dquote) then
            rbind (scanstring r) (fun '(str, rest) => Returns (PStr str, rest))
          else if decide (c = "{"%char) then
            match depth with
            | O => Raises (recursion_error "object")
            | S depth' =>
                match skip_ws r with
                | String c1 rest =>
                    if decide (c1 = "}"%char) then Returns (PDict [], rest)
                    else if decide (c1 = dquote) then parse_members py fuel' depth' rest []
                    else Raises (error "Expecting property name enclosed in double quotes")
                | EmptyString =>
                    Raises (error "Expecting property name enclosed in double quotes")
                end
            end
          else if decide (c = "["%char) then
            match depth with
            | O => Raises (recursion_error "array")
            | S depth' =>
                match skip_ws r with
                | String "]"%char rest => Returns (PList [], rest)
                | r' => parse_elements py fuel' depth' r' []
                end
            end
          else scan_atom py s
      end
  end

(** The loop of [JSONArray]: [s] starts at a value. *)
with parse_elements (py : Interpreter) (fuel depth : nat) (s : string) (acc : list pyval)
  : result (pyval * string) :=
  match fuel with
  | O => Diverges
  | S fuel' =>
      rbind (scan_once py fuel' depth s) (fun '(v, rest) =>
        match skip_ws rest with
        | String "]"%char rest' => Returns (PList (acc ++ [v]), rest')
        | String ","%char rest' => parse_elements py fuel' depth (skip_ws rest') (acc ++ [v])
        | _ => Raises (error "Expecting ',' delimiter")
        end)
  end

(** The loop of [JSONObject]: [s] starts just after the opening quote of a key. *)
with parse_members (py : Interpreter) (fuel depth : nat) (s : string)
    (acc : list (string * pyval)) : result (pyval * string) :=
  match fuel with
  | O => Diverges
  | S fuel' =>
      rbind (scanstring s) (fun '(key, rest) =>
        match skip_ws rest with
        | String ":"%char rest1 =>
            rbind (scan_once py fuel' depth (skip_ws rest1)) (fun '(v, rest2) =>
              match skip_ws rest2 with
              | String "}"%char rest3 => Returns (PDict (dict_set key v acc), rest3)
              | String ","%char rest3 =>
                  match skip_ws rest3 with
                  | String c4 rest4 =>
                      if decide (c4 = dquote)
                      then parse_members py fuel' depth rest4 (dict_set key v acc)
                      else Raises (error "Expecting property name enclosed in double quotes")
                  | EmptyString =>
                      Raises (error "Expecting property name enclosed in double quotes")
                  end
              | _ => Raises (error "Expecting ',' delimiter")
              end)
        | _ => Raises (error "Expecting ':' delimiter")
        end)
  end.

(** The UTF-8 encoding of the byte order mark U+FEFF. *)
Definition bom : string := String (chr 239) (String (chr 187) (String (chr 191) "")).

(** Every nested call consumes a character first, so no document needs more
    than twice its length. *)
Definition enough_fuel (s : string) : nat := S (2 * String.length s).

(** [json.loads(s)] for a [str]. *)
Definition loads (py : Interpreter) (s : string) : result pyval :=
  if String.prefix bom s then Raises (error "Unexpected UTF-8 BOM (decode using utf-8-sig)")
  else
    rbind (scan_once py (enough_fuel s) (recursion_budget py) (skip_ws s)) (fun '(v, rest) =>
      match skip_ws rest with
      | EmptyString => Returns v
      | _ => Raises (error "Extra data")
      end).

(** The classes of what [json.loads] raises on a [str]. *)
Definition raised_by_loads (c : exc_class) : Prop :=
  c = JSONDecodeError \/ c = RecursionError \/ c = ValueError.

(** The three things every scanner is shown to satisfy: it answers, it only
    raises what [json.loads] may raise, and it consumes input. *)
Definition scans_well {A} (s : string) (r : result (A * string)) : Prop :=
  match r with
  | Returns (_, rest) => (String.length rest < String.length s)%nat
  | Raises e => raised_by_loads (exc_cls e)
  | Diverges => False
  end.

End Json.

(** ** [billie_servicing/processor.py] *)

Module Processor.
Import Py.

#[global] Instance result_ret : MRet result := @Returns.
#[global] Instance result_bind : MBind result := fun A B k r => rbind r k.

(** *** [sanitize_envelope] *)

Definition sanitize_envelope (py : Interpreter) (data : gmap string pyval)
  : result (gmap string pyval) :=
  let result0 := data in
  (* Fix c_seq: should be int, may come as empty string *)
  result1 ←
    match result0 !! "c_seq" with
    | Some v =>
        if eq_empty_str v || is_none v then Returns (<["c_seq" := PInt 0]> result0)
        else match v with
             | PStr s =>
                 rtry (n ← int_of_str py s; Returns (<["c_seq" := PInt n]> result0))
                      (fun e => if isinstance e ValueError
                                then Some (Returns (<["c_seq" := PInt 0]> result0))
                                else None)
             | _ => Returns result0
             end
    | None => Returns result0
    end;
  (* Fix seq: should be int *)
  result2 ←
    match result1 !! "seq" with
    | Some v =>
        if eq_empty_str v || is_none v then Returns (<["seq" := PInt 0]> result1)
        else match v with
             | PStr s =>
                 rtry (n ← int_of_str py s; Returns (<["seq" := PInt n]> result1))
                      (fun e => if isinstance e ValueError
                                then Some (Returns (<["seq" := PInt 0]> result1))
                                else None)
             | _ => Returns result1
             end
    | None => Returns result1
    end;
  (* Fix rec: should be list, may come as JSON string *)
  result3 ←
    match result2 !! "rec" with
    | Some v =>
        match v with
        | PStr s =>
            rtry (parsed ← Json.loads py s; Returns (<["rec" := parsed]> result2))
                 (fun e => if isinstance e JSONDecodeError
                           then Some (Returns (<["rec" := if truthy v then PList [v]
                                                          else PList []]> result2))
                           else None)
        | PNone => Returns (<["rec" := PList []]> result2)
        | _ => Returns result2
        end
    | None => Returns result2
    end;
  (* Fix dat: payload may be JSON string *)
  result4 ←
    match result3 !! "dat" with
    | Some (PStr s) =>
        rtry (parsed ← Json.loads py s; Returns (<["dat" := parsed]> result3))
             (fun e => if isinstance e JSONDecodeError
                       then Some (Returns result3)   (* Keep as string if not valid JSON *)
                       else None)
    | _ => Returns result3
    end;
  Returns result4.

(** *** The environment of [EventProcessor] *)

(** [settings], imported from [.config]: the fields the processor reads. *)
Record Settings : Type := MkSettings {
  redis_url : string;
  database_uri : string;
  db_name : string;
  inbox_stream : string;
  internal_stream : string;
  dlq_stream : string;
  consumer_group : string;
  batch_size : Z;
  block_timeout_ms : Z;
  dedup_ttl_seconds : Z;
  max_retries : Z
}.

(** What [_parse_event] returns: the object of the accounts SDK, the
    [ParsedEvent] instance built around the payload of the customers SDK, or
    the dict it was given. *)
Inductive parsed_event : Type :=
| AccountEvent (obj : pyval)
| CustomerEvent (event_type : string) (conversation_id sequence : pyval) (payload : pyval)
| RawDict (d : gmap string pyval).

(** The methods called on the Redis client. *)
Inductive redis_command : Type :=
| PING
| CLOSE
| EXISTS (key : string)
| SETEX (key : string) (ttl : Z) (value : string)
| XACK (stream group : string) (message_id : string)
| XADD (stream : string) (fields : gmap string string).

(** The coroutines of the processor that the supervisor loop awaits; the loop
    sees only whether they return or raise. *)
Inductive coroutine : Type :=
| EnsureConsumerGroup (stream : string)
| ProcessPendingMessages (stream : string)
| ProcessNewMessages
| RecoverAfterReconnect.

(** Every call whose outcome the environment decides. *)
Inductive call : Type :=
| RedisFromUrl (url : string)                         (* redis.from_url(url, ...) *)
| Redis (client : pyval) (cmd : redis_command)        (* await client.cmd(...) *)
| MotorClient (uri : string) (serverSelectionTimeoutMS : Z)  (* AsyncIOMotorClient(...) *)
| MongoGetItem (client : pyval) (name : string)       (* client[name] *)
| DbCommand (db : pyval) (cmd : string)               (* await db.command(cmd) *)
| MongoClose (client : pyval)                         (* client.close() *)
| Sleep (seconds : Z)                                 (* await asyncio.sleep(seconds) *)
| ParseAccountMessage (data : gmap string pyval)      (* parse_account_message(data) *)
| ParseCustomerMessage (data : gmap string pyval)     (* parse_customer_message(data) *)
| Handler (handler : pyval) (db : pyval) (event : parsed_event)  (* await handler(db, event) *)
| Await (c : coroutine).

Inductive answer : Type :=
| Ret (v : pyval)
| Throw (e : exn).

Definition event : Type := call * answer.

(** *** What is observed of a run: the kinds of recorded calls *)

Definition is_handler (ev : event) : bool :=
  match ev with (Handler _ _ _, _) => true | _ => false end.
Definition handler_returned (ev : event) : bool :=
  match ev with (Handler _ _ _, Ret _) => true | _ => false end.
Definition handler_raised (ev : event) : bool :=
  match ev with (Handler _ _ _, Throw _) => true | _ => false end.

(** The write of the dedup marker, the ack, the append to a stream. *)
Definition is_setex (ev : event) : bool :=
  match ev with (Redis _ (SETEX _ _ _), _) => true | _ => false end.
Definition is_xack (ev : event) : bool :=
  match ev with (Redis _ (XACK _ _ _), _) => true | _ => false end.
Definition is_xadd (ev : event) : bool :=
  match ev with (Redis _ (XADD _ _), _) => true | _ => false end.

(** The call came back with a value. *)
Definition returned (ev : event) : bool :=
  match ev with (_, Ret _) => true | _ => false end.

Definition is_motor_client (ev : event) : bool :=
  match ev with (MotorClient _ _, _) => true | _ => false end.

Definition is_mongo_close (ev : event) : bool :=
  match ev with (MongoClose _, _) => true | _ => false end.

(** How many of the calls are of a kind. *)
Definition count (kind : event -> bool) (t : list event) : nat :=
  length (List.filter kind t).

(** The durations of the sleeps, in order. *)
Fixpoint sleeps (t : list event) : list Z :=
  match t with
  | [] => []
  | (Sleep d, _) :: t' => d :: sleeps t'
  | _ :: t' => sleeps t'
  end.

(** The attributes of an [EventProcessor] that its methods read or assign. *)
Record processor : Type := MkProcessor {
  self_redis_url : string;
  self_database_uri : string;
  self_db_name : string;
  redis : pyval;
  mongo : pyval;
  db : pyval;
  handlers : gmap string pyval;
  _running : bool
}.

Definition set_redis (v : pyval) (p : processor) : processor :=
  MkProcessor (self_redis_url p) (self_database_uri p) (self_db_name p)
    v (mongo p) (db p) (handlers p) (_running p).
Definition set_mongo (v : pyval) (p : processor) : processor :=
  MkProcessor (self_redis_url p) (self_database_uri p) (self_db_name p)
    (redis p) v (db p) (handlers p) (_running p).
Definition set_db (v : pyval) (p : processor) : processor :=
  MkProcessor (self_redis_url p) (self_database_uri p) (self_db_name p)
    (redis p) (mongo p) v (handlers p) (_running p).
Definition set_running (b : bool) (p : processor) : processor :=
  MkProcessor (self_redis_url p) (self_database_uri p) (self_db_name p)
    (redis p) (mongo p) (db p) (handlers p) b.

(** [x or y] where [x] is an optional argument *)
Definition or_setting (x : option string) (y : string) : string :=
  match x with
  | Some s => if String.eqb s "" then y else s
  | None => y
  end.

(** [EventProcessor.__init__] *)
Definition init (settings : Settings) (redis_url database_uri db_name : option string)
  : processor :=
  MkProcessor (or_setting redis_url (Processor.redis_url settings))
    (or_setting database_uri (Processor.database_uri settings))
    (or_setting db_name (Processor.db_name settings))
    PNone PNone PNone ∅ false.

(** [EventProcessor.register_handler] *)
Definition register_handler (event_type : string) (handler : pyval) (p : processor)
  : processor :=
  MkProcessor (self_redis_url p) (self_database_uri p) (self_db_name p)
    (redis p) (mongo p) (db p) (<[event_type := handler]> (handlers p)) (_running p).

Section WithEnvironment.

(** The environment: a state [W], how it answers a call, what its clock
    shows as [datetime.utcnow().isoformat()], and whether [stop()] has been
    called from outside; the settings, and the interpreter as it is where
    [sanitize_envelope] is called. *)
Context {W : Type}.
Variable respond : W -> call -> W * answer.
Variable utcnow_isoformat : W -> string.
Variable stop_called : W -> bool.
Variable settings : Settings.
Variable python : Interpreter.

Record pstate : Type := MkState {
  world : W;
  self : processor
}.

(** Computations: from a state they give the state afterwards, the calls
    made with their answers, in order, and whether they return, raise or use
    up their loop budget. *)
Definition M (A : Type) : Type := pstate -> pstate * list event * result A.

#[global] Instance M_ret : MRet M := fun A a s => (s, [], Returns a).
#[global] Instance M_bind : MBind M := fun A B k m s =>
  match m s with
  | (s1, t1, Returns a) =>
      match k a s1 with
      | (s2, t2, r) => (s2, (t1 ++ t2)%list, r)
      end
  | (s1, t1, Raises e) => (s1, t1, Raises e)
  | (s1, t1, Diverges) => (s1, t1, Diverges)
  end.

Definition raise {A} (e : exn) : M A := fun s => (s, [], Raises e).
Definition out_of_fuel {A} : M A := fun s => (s, [], Diverges).

(** A pure computation ([int], [decode], [sanitize_envelope]) inside [M]. *)
Definition lift {A} (r : result A) : M A := fun s => (s, [], r).

(** [try: body except <clauses>] *)
Definition try_except {A} (body : M A) (clauses : exn -> option (M A)) : M A := fun s =>
  match body s with
  | (s1, t1, Raises e) =>
      match clauses e with
      | Some h =>
          match h s1 with
          | (s2, t2, r) => (s2, (t1 ++ t2)%list, r)
          end
      | None => (s1, t1, Raises e)
      end
  | r => r
  end.

(** A call to the environment, recorded with its answer. *)
Definition perform (c : call) : M pyval := fun s =>
  match respond (world s) c with
  | (w', Ret v) => (MkState w' (self s), [(c, Ret v)], Returns v)
  | (w', Throw e) => (MkState w' (self s), [(c, Throw e)], Raises e)
  end.

Definition get_self : M processor := fun s => (s, [], Returns (self s)).
Definition update_self (f : processor -> processor) : M unit := fun s =>
  (MkState (world s) (f (self s)), [], Returns tt).
Definition get_world : M W := fun s => (s, [], Returns (world s)).

(** The calls made by a computation, and its outcome. *)
Definition calls_of {A} (m : M A) (s : pstate) : list event := (m s).1.2.
Definition outcome_of {A} (m : M A) (s : pstate) : result A := (m s).2.
Definition state_after {A} (m : M A) (s : pstate) : pstate := (m s).1.1.

Definition attribute_error (attr : string) : exn :=
  MkExn AttributeError ("'NoneType' object has no attribute '" ++ attr ++ "'").

Definition command_name (cmd : redis_command) : string :=
  match cmd with
  | PING => "ping" | CLOSE => "close" | EXISTS _ => "exists" | SETEX _ _ _ => "setex"
  | XACK _ _ _ => "xack" | XADD _ _ => "xadd"
  end.

(** [await self.redis.cmd(...)] *)
Definition redis_call (cmd : redis_command) : M pyval :=
  p ← get_self;
  if is_none (redis p) then raise (attribute_error (command_name cmd))
  else perform (Redis (redis p) cmd).

(** The connection-class errors: [(RedisConnectionError, RedisTimeoutError, OSError)]. *)
Definition connection_errors : list exc_class :=
  [RedisConnectionError; RedisTimeoutError; OSError].

(** *** [EventProcessor._connect] *)

Definition max_startup_backoff : Z := 30.

(** The body of the [try] of the Redis phase. *)
Definition connect_redis_attempt : M unit :=
  p ← get_self;
  client ← perform (RedisFromUrl (self_redis_url p));
  update_self (set_redis client);;
  redis_call PING;;
  mret tt.

(** The [while True] of the Redis phase: [true] from the [try] stands for
    reaching [break]. *)
Fixpoint connect_redis (fuel : nat) (startup_backoff : Z) : M unit :=
  match fuel with
  | O => out_of_fuel
  | S fuel' =>
      connected ←
        try_except (connect_redis_attempt;; mret true)
          (fun e =>
             if isinstance_any e connection_errors then Some (
               (* Close the failed client to avoid leaking sockets *)
               p ← get_self;
               (if truthy (redis p) then
                  try_except (redis_call CLOSE;; mret tt)
                    (fun e' => if isinstance e' Exception then Some (mret tt) else None);;
                  update_self (set_redis PNone)
                else mret tt);;
               perform (Sleep startup_backoff);;
               mret false)
             else None);
      if connected : bool then mret tt
      else connect_redis fuel' (Z.min (startup_backoff * 2) max_startup_backoff)
  end.

(** The body of the [try] of the MongoDB phase. *)
Definition connect_mongo_attempt : M unit :=
  p ← get_self;
  client ← perform (MotorClient (self_database_uri p) 10000);
  update_self (set_mongo client);;
  database ← perform (MongoGetItem client (self_db_name p));
  update_self (set_db database);;
  perform (DbCommand database "ping");;
  mret tt.

Definition mongo_transient_errors : list exc_class :=
  [MongoConnectionFailure; MongoServerSelectionTimeoutError; OSError].

(** The [while True] of the MongoDB phase. *)
Fixpoint connect_mongo (fuel : nat) (startup_backoff : Z) : M unit :=
  match fuel with
  | O => out_of_fuel
  | S fuel' =>
      connected ←
        try_except (connect_mongo_attempt;; mret true)
          (fun e =>
             if isinstance e MongoConfigurationError then
               (* Bad URI or invalid options: will never self-heal, fail fast *)
               Some (raise e)
             else if isinstance_any e mongo_transient_errors then Some (
               (* Transient connectivity errors: retry with backoff *)
               p ← get_self;
               (if truthy (mongo p) then
                  perform (MongoClose (mongo p));;
                  update_self (set_mongo PNone);;
                  update_self (set_db PNone)
                else mret tt);;
               perform (Sleep startup_backoff);;
               mret false)
             else None);
      if connected : bool then mret tt
      else connect_mongo fuel' (Z.min (startup_backoff * 2) max_startup_backoff)
  end.

Definition _connect (fuel : nat) : M unit :=
  let startup_backoff := 1 in
  connect_redis fuel startup_backoff;;
  let startup_backoff := 1 in   (* reset for MongoDB phase *)
  connect_mongo fuel startup_backoff.

(** *** [EventProcessor._move_to_dlq], [_parse_event], [_process_message] *)

(** [{k.decode(): v.decode() for k, v in fields.items()}] *)
Definition decode_fields (fields : gmap string string) : result (gmap string string) :=
  if bool_decide (map_Forall (fun k v => utf8_valid k && utf8_valid v) fields)
  then Returns fields
  else Raises (MkExn UnicodeDecodeError "'utf-8' codec can't decode bytes").

Definition _move_to_dlq (message_id : string) (fields : gmap string string)
    (error : string) : M unit :=
  message_id_str ← lift (decode message_id);
  decoded ← lift (decode_fields fields);
  w ← get_world;
  let dlq_entry :=
    <["moved_at" := utcnow_isoformat w]>
      (<["error" := error]> (<["original_message_id" := message_id_str]> decoded)) in
  redis_call (XADD (dlq_stream settings) dlq_entry);;
  mret tt.

Definition _parse_event (event_type : string) (sanitized : gmap string pyval)
  : M parsed_event :=
  (* Sanitize envelope fields for SDK compatibility *)
  sdk_data ← lift (sanitize_envelope python sanitized);
  if startswith event_type "account." || startswith event_type "payment." then
    (* Use accounts SDK *)
    obj ← perform (ParseAccountMessage sdk_data);
    mret (AccountEvent obj)
  else if startswith event_type "customer." || startswith event_type "application." then
    (* Use customers SDK *)
    payload ← perform (ParseCustomerMessage sdk_data);
    mret (CustomerEvent event_type
            (default (PStr "") (sdk_data !! "conv"))
            (default (PStr "") (sdk_data !! "seq"))
            payload)
  else
    (* Chat events - return raw dict *)
    mret (RawDict sanitized).

(** [x or y] for an [x] that is a string or [None] *)
Definition str_or (x : option string) (y : string) : string :=
  match x with
  | Some s => if String.eqb s "" then y else s
  | None => y
  end.

Definition dedup_key_of (stream message_id_str : string) : string :=
  "dedup:" ++ stream ++ ":" ++ message_id_str.

Definition _process_message (message : string * gmap string string) (stream : string)
    (delivery_count : Z) : M unit :=
  let '(message_id, fields) := message in
  message_id_str ← lift (decode message_id);
  try_except
    ((* Decode bytes to strings *)
     sanitized ← lift (decode_fields fields);
     (* Get event type *)
     let event_type :=
       str_or (sanitized !! "msg_type")
         (str_or (sanitized !! "typ") (default "" (sanitized !! "event_type"))) in
     (* Deduplication check - use Redis entry ID (message_id) as primary key *)
     let dedup_key := dedup_key_of stream message_id_str in
     seen ← redis_call (EXISTS dedup_key);
     if truthy seen then
       redis_call (XACK stream (consumer_group settings) message_id);;
       mret tt
     else
       (* Parse with appropriate SDK *)
       parsed_event ← _parse_event event_type (PStr <$> sanitized);
       (* Get handler *)
       p ← get_self;
       let handler := default PNone (handlers p !! event_type) in
       if negb (truthy handler) then
         redis_call (XACK stream (consumer_group settings) message_id);;
         mret tt
       else
         (* Execute handler (writes to MongoDB) *)
         perform (Handler handler (db p) parsed_event);;
         (* Set dedup key with TTL *)
         redis_call (SETEX dedup_key (dedup_ttl_seconds settings) "1");;
         (* ACK after successful write *)
         redis_call (XACK stream (consumer_group settings) message_id);;
         mret tt)
    (fun e =>
       if isinstance_any e connection_errors then
         (* Re-raise connection errors so the main loop can handle reconnection *)
         Some (raise e)
       else if isinstance e Exception then Some (
         if max_retries settings <=? delivery_count then
           try_except
             (_move_to_dlq message_id fields (str_of_exn e);;
              redis_call (XACK stream (consumer_group settings) message_id);;
              mret tt)
             (fun dlq_err =>
                if isinstance_any dlq_err connection_errors then Some (mret tt) else None)
         else mret tt)
       else None).

(** *** The supervisor: [EventProcessor.start] *)

Definition max_reconnect_backoff : Z := 30.

Definition await (c : coroutine) : M unit := perform (Await c);; mret tt.

(** The sleep with backoff and the recovery shared by Layer 2 and by the
    connection loss of Layer 1; gives the next value of [reconnect_backoff]. *)
Definition sleep_then_recover (reconnect_backoff : Z) : M Z :=
  perform (Sleep reconnect_backoff);;
  let reconnect_backoff := Z.min (reconnect_backoff * 2) max_reconnect_backoff in
  try_except
    (await RecoverAfterReconnect;;
     mret 1)
    (fun reconnect_err =>
       if isinstance reconnect_err Exception then Some (mret reconnect_backoff) else None).

(** One iteration of [while self._running]; gives the next value of
    [reconnect_backoff]. *)
Definition loop_body (reconnect_backoff : Z) : M Z :=
  try_except
    (await ProcessNewMessages;;
     mret 1)   (* Reset on successful iteration *)
    (fun e =>
       if isinstance e RedisResponseError then Some (
         (* Layer 1: NOGROUP recovery *)
         if contains "NOGROUP" (str_of_exn e) then
           try_except
             (await (EnsureConsumerGroup (inbox_stream settings));;
              await (EnsureConsumerGroup (internal_stream settings));;
              mret 1)
             (fun conn_err =>
                if isinstance_any conn_err connection_errors then
                  Some (sleep_then_recover reconnect_backoff)
                else if isinstance conn_err RedisResponseError then Some (raise conn_err)
                else None)
         else raise e)
       else if isinstance_any e connection_errors then
         (* Layer 2: Connection error reconnection *)
         Some (sleep_then_recover reconnect_backoff)
       else if isinstance e CancelledError then Some (
         (* Layer 3: Graceful cancellation *)
         update_self (set_running false);;
         raise e)
       else if isinstance e Exception then Some (
         (* Layer 4: Generic catch-all *)
         perform (Sleep 1);;   (* Brief pause to avoid tight error loops *)
         mret reconnect_backoff)
       else None).

Fixpoint steady_state_loop (fuel : nat) (reconnect_backoff : Z) : M unit :=
  match fuel with
  | O => out_of_fuel
  | S fuel' =>
      p ← get_self;
      w ← get_world;
      if _running p && negb (stop_called w) then
        reconnect_backoff ← loop_body reconnect_backoff;
        steady_state_loop fuel' reconnect_backoff
      else mret tt
  end.

Definition start (fuel : nat) : M unit :=
  _connect fuel;;
  await (EnsureConsumerGroup (inbox_stream settings));;
  await (EnsureConsumerGroup (internal_stream settings));;
  await (ProcessPendingMessages (inbox_stream settings));;
  await (ProcessPendingMessages (internal_stream settings));;
  update_self (set_running true);;
  let reconnect_backoff := 1 in
  steady_state_loop fuel reconnect_backoff.

End WithEnvironment.

End Processor.

(** ** [scripts/subst-sdk-requirements.py] *)

Module SubstSdkRequirements.
Import Py.

Definition LF : ascii := ascii_of_nat 10.
Definition CR : ascii := ascii_of_nat 13.

(** *** Text files *)

(** Reading in text mode: [\r\n] and [\r] become [\n]. *)
Fixpoint universal_newlines (s : string) : string :=
  match s with
  | EmptyString => EmptyString
  | String c s' =>
      if decide (c = CR) then
        match s' with
        | String c' s'' =>
            if decide (c' = LF) then String LF (universal_newlines s'')
            else String LF (universal_newlines s')
        | EmptyString => String LF EmptyString
        end
      else String c (universal_newlines s')
  end.

(** The lines of a text, each with its newline; [line] holds the characters
    of the current line read so far.  At the end of the file ([eof]) what
    follows the last newline is a line as well. *)
Fixpoint lines_from (eof : bool) (line : string) (s : string) : list string :=
  match s with
  | EmptyString =>
      match line with
      | EmptyString => []
      | _ => if eof then [line] else []
      end
  | String c s' =>
      if decide (c = LF) then (line ++ String LF "") :: lines_from eof "" s'
      else lines_from eof (line ++ String c "") s'
  end.

(** What [for line in f] goes through when the file decodes. *)
Definition readlines (content : string) : list string :=
  lines_from true "" (universal_newlines content).

Definition cannot_decode : exn :=
  MkExn UnicodeDecodeError "'utf-8' codec can't decode bytes".

(** [f.read()] on a file opened in text mode. *)
Definition read_text (content : string) : result string :=
  if utf8_valid content then Returns (universal_newlines content)
  else Raises cannot_decode.

(** The second byte that the incremental decoder lets pass after the lead
    byte [a] of a three-byte sequence while the third byte is not there. *)
Definition second_of_three_so_far (a b : ascii) : bool :=
  if code a =? 224 then between 160 191 b else cont b.

(** The second byte of a complete three-byte sequence: no surrogates. *)
Definition second_of_three_strict (a b : ascii) : bool :=
  if code a =? 224 then between 160 191 b
  else if code a =? 237 then between 128 159 b
  else cont b.

(** The incremental decoder on the bytes read so far: the bytes it has
    turned into text, a sequence that is cut short at the end being held back;
    [None] when it raises. *)
Fixpoint utf8_prefix (s : string) : option string :=
  match s with
  | EmptyString => Some EmptyString
  | String a r =>
      if code a <? 128 then String a <$> utf8_prefix r
      else if between 194 223 a then
        match r with
        | EmptyString => Some EmptyString
        | String b r2 =>
            if cont b then (fun t => String a (String b t)) <$> utf8_prefix r2 else None
        end
      else if between 224 239 a then
        match r with
        | EmptyString => Some EmptyString
        | String b r2 =>
            match r2 with
            | EmptyString => if second_of_three_so_far a b then Some EmptyString else None
            | String c r3 =>
                if second_of_three_strict a b && cont c
                then (fun t => String a (String b (String c t))) <$> utf8_prefix r3
                else None
            end
        end
      else if between 240 244 a then
        match r with
        | EmptyString => Some EmptyString
        | String b r2 =>
            if negb (second_of_four a b) then None
            else
              match r2 with
              | EmptyString => Some EmptyString
              | String c r3 =>
                  if negb (cont c) then None
                  else
                    match r3 with
                    | EmptyString => Some EmptyString
                    | String d r4 =>
                        if cont d
                        then (fun t => String a (String b (String c (String d t))))
                               <$> utf8_prefix r4
                        else None
                    end
              end
        end
      else None
  end.

(** A carriage return at the end of what was decoded is held back until the
    next character is known. *)
Fixpoint drop_last_cr (s : string) : string :=
  match s with
  | EmptyString => EmptyString
  | String c EmptyString => if decide (c = CR) then EmptyString else s
  | String c s' => String c (drop_last_cr s')
  end.

(** [TextIOWrapper._CHUNK_SIZE] of CPython. *)
Definition default_chunk_size : nat := 8 * 1024.

Section Reading.

(** The number of bytes that the text layer asks of the file at a time. *)
Variable chunk_size : nat.

(** The number of chunks of [b] read before the one at which the decoder
    raises, starting from [k]. *)
Fixpoint chunks_decoded (fuel : nat) (b : string) (k : nat) : nat :=
  match fuel with
  | O => k
  | S fuel' =>
      if (k * chunk_size <? String.length b)%nat
         && bool_decide (is_Some (utf8_prefix (String.substring 0 (S k * chunk_size) b)))
      then chunks_decoded fuel' b (S k)
      else k
  end.

(** What [for line in f] goes through, and the exception that ends it when
    the file does not decode: the lines then are the complete lines of the
    chunks read before. *)
Definition read_lines (b : string) : list string * option exn :=
  if utf8_valid b then (readlines b, None)
  else
    let k := chunks_decoded (S (String.length b)) b 0 in
    let good := default EmptyString (utf8_prefix (String.substring 0 (k * chunk_size) b)) in
    (lines_from false "" (universal_newlines (drop_last_cr good)), Some cannot_decode).

End Reading.

(** *** The file system *)

(** The regular files: the inode that a path leads to (hard and symbolic
    links followed), and the bytes of each inode. *)
Record filesystem : Type := MkFilesystem {
  inode_of : gmap string nat;
  bytes_of : gmap nat string
}.

Definition content (fs : filesystem) (inode : nat) : string :=
  default EmptyString (bytes_of fs !! inode).

(** [f.write] and [f.close] taken together: the bytes of the file. *)
Definition store (fs : filesystem) (inode : nat) (bytes : string) : filesystem :=
  MkFilesystem (inode_of fs) (<[inode := bytes]> (bytes_of fs)).

Definition no_such_file (path : string) : exn :=
  MkExn FileNotFoundError ("[Errno 2] No such file or directory: " ++ path).

Definition usage : string :=
  "Usage: subst-sdk-requirements.py <secret_file> <requirements_in> <requirements_out>".

Definition placeholder : string := "${GITHUB_TOKEN}".

(** The [for] loop of [main]; [out] is what has been written so far. *)
Fixpoint write_lines (token : string) (lines : list string) (out : string) : string :=
  match lines with
  | [] => out
  | line :: rest =>
      let s := strip line in
      if startswith s "git+https" && contains placeholder line
      then write_lines token rest (out ++ replace placeholder token line)
      else write_lines token rest out
  end.

(** The test of the [if] in that loop. *)
Definition kept (line : string) : bool :=
  startswith (strip line) "git+https" && contains placeholder line.

Section WithSystem.

(** What the operating system has to say of a path that is opened, for
    reading ([false]) or for writing ([true]): the exception of a missing
    directory, of a directory in place of a file, of missing permissions. *)
Variable refused : bool -> string -> option exn.
Variable chunk_size : nat.

(** [open(path)] *)
Definition open_r (fs : filesystem) (path : string) : result nat :=
  match refused false path with
  | Some e => Raises e
  | None =>
      match inode_of fs !! path with
      | Some inode => Returns inode
      | None => Raises (no_such_file path)
      end
  end.

(** [open(path, "w")]: the file is emptied, or made. *)
Definition open_w (fs : filesystem) (path : string) : filesystem * result nat :=
  match refused true path with
  | Some e => (fs, Raises e)
  | None =>
      match inode_of fs !! path with
      | Some inode => (store fs inode EmptyString, Returns inode)
      | None =>
          let inode := fresh (dom (bytes_of fs) ∪ map_img (inode_of fs) : gset nat) in
          (MkFilesystem (<[path := inode]> (inode_of fs))
             (<[inode := EmptyString]> (bytes_of fs)),
           Returns inode)
      end
  end.

(** [open(secret_path).read().strip()] *)
Definition read_token (fs : filesystem) (secret_path : string) : result string :=
  rbind (open_r fs secret_path) (fun f =>
  rbind (read_text (content fs f)) (fun text =>
  Returns (strip text))).

(** [main()], given [sys.argv] and the file system; gives the file system
    afterwards.  The output is opened, and so emptied, before the first line
    of the input is read; leaving the [with] block closes it with what was
    written, also when reading raises. *)
Definition main (argv : list string) (fs : filesystem) : filesystem * result unit :=
  match argv with
  | [_; secret_path; req_in; req_out] =>
      match read_token fs secret_path with
      | Returns token =>
          match open_r fs req_in with
          | Returns f =>
              match open_w fs req_out with
              | (fs1, Returns out) =>
                  let '(lines, failure) := read_lines chunk_size (content fs1 f) in
                  (store fs1 out (write_lines token lines EmptyString),
                   match failure with
                   | Some e => Raises e
                   | None => Returns tt
                   end)
              | (_, Raises e) => (fs, Raises e)
              | (_, Diverges) => (fs, Diverges)
              end
          | Raises e => (fs, Raises e)
          | Diverges => (fs, Diverges)
          end
      | Raises e => (fs, Raises e)
      | Diverges => (fs, Diverges)
      end
  | _ => (fs, Raises (MkExn SystemExit usage))
  end.

End WithSystem.

End SubstSdkRequirements.

(** ** The coercions of the envelope sanitizer, as the specification words them *)

Module Coercions.
Import Py.

(** [c_seq], [seq]: "If empty or absent-valued, set to integer 0.  If textual,
    parse as integer; on parse failure, set to 0." *)
Definition coerce_seq (py : Interpreter) (v : pyval) : pyval :=
  match v with
  | PNone => PInt 0
  | PStr s =>
      match int_of_str py s with
      | Returns n => PInt n
      | _ => PInt 0
      end
  | _ => v
  end.

(** [rec]: "if textual, attempt structured decode; on failure treat as a
    single-element list containing the raw text, unless the raw text is empty
    in which case the empty list.  If absent-valued, set to empty list." *)
Definition coerce_rec (py : Interpreter) (v : pyval) : pyval :=
  match v with
  | PNone => PList []
  | PStr s =>
      match Json.loads py s with
      | Returns parsed => parsed
      | _ => match s with EmptyString => PList [] | _ => PList [PStr s] end
      end
  | _ => v
  end.

(** [dat]: "if textual, attempt structured decode; on failure, leave the text
    unchanged." *)
Definition coerce_dat (py : Interpreter) (v : pyval) : pyval :=
  match v with
  | PStr s =>
      match Json.loads py s with
      | Returns parsed => parsed
      | _ => v
      end
  | _ => v
  end.

(** "with these coercions applied in order"; a key that is missing stays
    missing. *)
Definition coerced (py : Interpreter) (data : gmap string pyval) : gmap string pyval :=
  alter (coerce_dat py) "dat"
    (alter (coerce_rec py) "rec"
       (alter (coerce_seq py) "seq" (alter (coerce_seq py) "c_seq" data))).

End Coercions.

(** ** What leaves the sanitizer

    [int] raises nothing but [ValueError], which the blocks of [c_seq] and
    [seq] catch; [json.loads] raises more than the [json.JSONDecodeError] that
    the blocks of [rec] and [dat] catch. *)

Module Escaping.
Import Py.

(** The failure of the structured decode of a field that is no
    [JSONDecodeError], if there is one: the [except] clauses of the sanitizer
    let it pass. *)
Definition escapes (py : Interpreter) (field : option pyval) : option exn :=
  match field with
  | Some (PStr s) =>
      match Json.loads py s with
      | Raises e => if isinstance e JSONDecodeError then None else Some e
      | _ => None
      end
  | _ => None
  end.

(** What a block of the sanitizer gives: the exception that escapes it, or
    the map with the field coerced. *)
Definition block_outcome (escaping : option exn) (m : gmap string pyval)
  : result (gmap string pyval) :=
  match escaping with
  | Some e => Raises e
  | None => Returns m
  end.

End Escaping.

(** ** Properties of the calls of one dispatch ([_process_message]) *)

Module Delivery.
Import Py Processor.

(** Every write of the dedup marker comes after a handler call that returned. *)
Definition mark_follows_commit (t : list event) : Prop :=
  forall l1 ev l2, t = (l1 ++ ev :: l2)%list -> is_setex ev = true ->
    existsb handler_returned l1 = true.

(** After an ack there is neither a handler call nor a write of the marker,
    and an ack that comes after a handler call that returned also comes after
    the write of the marker. *)
Definition ack_follows_mark (t : list event) : Prop :=
  forall l1 ev l2, t = (l1 ++ ev :: l2)%list -> is_xack ev = true ->
    forallb (fun x => negb (is_setex x) && negb (is_handler x)) l2 = true /\
    (existsb handler_returned l1 = true -> existsb is_setex l1 = true).

Definition no_mark_when_handler_raises (t : list event) : Prop :=
  existsb handler_raised t = true -> existsb is_setex t = false.

Definition no_ack_when_handler_raises (t : list event) : Prop :=
  existsb handler_raised t = true -> existsb is_xack t = false.

(** "Ack safety", as the specification states it. *)
Definition ack_safety_as_stated (t : list event) : Prop :=
  mark_follows_commit t /\ ack_follows_mark t /\
  no_mark_when_handler_raises t /\ no_ack_when_handler_raises t.

(** When the handler raised, an ack is issued only at the retry ceiling, right
    after the append to the dead-letter stream has returned. *)
Definition ack_only_after_dlq_append (settings : Settings) (delivery_count : Z)
    (t : list event) : Prop :=
  existsb handler_raised t = true ->
  forall l1 ev l2, t = (l1 ++ ev :: l2)%list -> is_xack ev = true ->
    max_retries settings <= delivery_count /\
    exists l0 client entry v,
      l1 = (l0 ++ [(Redis client (XADD (dlq_stream settings) entry), Ret v)])%list.

(** The calls whose exception is a failure of the handler or of the parser. *)
Definition handler_or_parser (c : call) : bool :=
  match c with
  | Handler _ _ _ | ParseAccountMessage _ | ParseCustomerMessage _ => true
  | _ => false
  end.

Definition appended (ev : event) : bool := is_xadd ev && returned ev.
Definition acked (ev : event) : bool := is_xack ev && returned ev.
Definition append_lost_connection (ev : event) : bool :=
  match ev with
  | (Redis _ (XADD _ _), Throw e) => isinstance_any e connection_errors
  | _ => false
  end.

(** "DLQ finality", as the specification states it: (a) appended and acked, or
    (b) neither, the append having failed with a connection-class error. *)
Definition dlq_finality_as_stated (t : list event) : Prop :=
  (existsb appended t = true /\ existsb acked t = true) \/
  (existsb appended t = false /\ existsb acked t = false /\
   existsb append_lost_connection t = true).

End Delivery.

(** ** The sleeps of the supervisor loop, burst by burst *)

Module Backoff.
Import Py Processor.

(** The values [reconnect_backoff] takes when it is doubled [n] times from 1
    under the cap. *)
Fixpoint backoff_after (n : nat) : Z :=
  match n with
  | O => 1
  | S n' => Z.min (backoff_after n' * 2) max_reconnect_backoff
  end.

(** The first [n] sleeps of a burst: 1, 2, 4, 8, 16, 30, 30, ... *)
Definition schedule (n : nat) : list Z := map backoff_after (seq 0 n).

Fixpoint nondecreasing (ds : list Z) : Prop :=
  match ds with
  | d1 :: ((d2 :: _) as rest) => d1 <= d2 /\ nondecreasing rest
  | _ => True
  end.

(** What the specification asks of the sleeps of one burst. *)
Definition burst_ok (ds : list Z) : Prop :=
  nondecreasing ds /\ head ds ∈ [None; Some 1] /\ Forall (fun d => d <= max_reconnect_backoff) ds.

Definition poll_returned (ev : event) : bool :=
  match ev with (Await ProcessNewMessages, Ret _) => true | _ => false end.

(** The bursts as the specification words them: the runs of iterations between two
    polls that returned, each with all its sleeps. *)
Fixpoint stated_bursts_from (cur : list Z) (t : list event) : list (list Z) :=
  match t with
  | [] => [cur]
  | ev :: t' =>
      if poll_returned ev then cur :: stated_bursts_from [] t'
      else match ev with
           | (Sleep d, _) => stated_bursts_from (cur ++ [d]) t'
           | _ => stated_bursts_from cur t'
           end
  end.

Definition stated_bursts : list event -> list (list Z) := stated_bursts_from [].

(** What the loop's own bookkeeping distinguishes.  The loop sets
    [reconnect_backoff] back to 1 after a poll that returned, after a recovery
    that returned, and after the second group of Layer 1 was re-created, which
    is an [EnsureConsumerGroup] that returns right after another one. *)
Definition resets_backoff (prev : option event) (ev : event) : bool :=
  match ev with
  | (Await ProcessNewMessages, Ret _) => true
  | (Await RecoverAfterReconnect, Ret _) => true
  | (Await (EnsureConsumerGroup _), Ret _) =>
      match prev with
      | Some (Await (EnsureConsumerGroup _), Ret _) => true
      | _ => false
      end
  | _ => false
  end.

(** The pause of Layer 4: the sleep that follows a poll raising anything but
    a connection-class error. *)
Definition is_pause (prev : option event) (ev : event) : bool :=
  match ev, prev with
  | (Sleep _, _), Some (Await ProcessNewMessages, Throw e) =>
      negb (isinstance_any e connection_errors)
  | _, _ => false
  end.

(** The observer of a run: the last call seen, the backoff sleeps since the
    last reset, the bursts closed by a reset, and the pauses. *)
Record observer : Type := MkObserver {
  last_seen : option event;
  current : list Z;
  closed : list (list Z);
  pauses : list Z
}.

Definition observe (o : observer) (ev : event) : observer :=
  if resets_backoff (last_seen o) ev then
    MkObserver (Some ev) [] (closed o ++ [current o]) (pauses o)
  else match ev with
       | (Sleep d, _) =>
           if is_pause (last_seen o) ev
           then MkObserver (Some ev) (current o) (closed o) (pauses o ++ [d])
           else MkObserver (Some ev) (current o ++ [d]) (closed o) (pauses o)
       | _ => MkObserver (Some ev) (current o) (closed o) (pauses o)
       end.

Definition observe_all (o : observer) (t : list event) : observer := fold_left observe t o.

Definition start_observer : observer := MkObserver None [] [] [].

(** The backoff sleeps of a run, burst by burst: a burst ends where the loop
    resets its backoff. *)
Definition bursts (t : list event) : list (list Z) :=
  let o := observe_all start_observer t in (closed o ++ [current o])%list.

(** The pauses of Layer 4 in a run. *)
Definition layer4_pauses (t : list event) : list Z :=
  pauses (observe_all start_observer t).

(** What is kept true from one iteration to the next: the backoff sleeps
    since the last reset follow the schedule and [reconnect_backoff] is the
    next value of it; the bursts closed so far follow the schedule; every
    pause lasted one second. *)
Definition bursts_on_schedule (o : observer) : Prop :=
  (exists n, current o = schedule n) /\
  Forall (fun ds => exists n, ds = schedule n) (closed o) /\
  Forall (fun d => d = 1) (pauses o).

Definition in_step (reconnect_backoff : Z) (o : observer) : Prop :=
  (exists n, current o = schedule n /\ reconnect_backoff = backoff_after n) /\
  Forall (fun ds => exists n, ds = schedule n) (closed o) /\
  Forall (fun d => d = 1) (pauses o).

End Backoff.

(** ** Environments and inputs for concrete runs *)

Module Fixtures.
Import Py Processor.

(** An environment that answers from a script, in order, and with [None]
    once the script is over. *)
Definition scripted (w : list answer) (c : call) : list answer * answer :=
  match w with
  | a :: w' => (w', a)
  | [] => ([], Ret PNone)
  end.

Definition clock (w : list answer) : string := "2024-05-01T12:00:00".

Definition never_stopped (w : list answer) : bool := false.

Definition test_settings : Settings :=
  MkSettings "redis://localhost:6379" "mongodb://localhost:27017" "billie-servicing"
    "inbox:billie-servicing" "inbox:billie-servicing:internal" "dlq:billie-servicing"
    "billie-servicing-processor" 10 5000 86400 3.

(** A processor after [_connect], with a handler for ["account.created"]. *)
Definition connected : processor :=
  register_handler "account.created" (PObj 7)
    (set_db (PObj 3) (set_mongo (PObj 2) (set_redis (PObj 1)
       (init test_settings None None None)))).

Definition fresh : processor := init test_settings None None None.

Definition state_with (script : list answer) (p : processor) : pstate :=
  MkState script p.

Definition account_created : string * gmap string string :=
  ("1714564800000-0",
   <["msg_type" := "account.created"]> (<["c_seq" := "7"]> (<["dat" := "{" ++ String dquote "id" ++ String dquote ":1}"]> ∅))).

Definition chat_message : gmap string pyval :=
  <["typ" := PStr "chat.message"]> (<["c_seq" := PStr "7"]> ∅).

(** The JSON text of the string [x]: a quote, [x], a quote. *)
Definition quoted_x : string := String dquote ("x" ++ String dquote "").

Definition requirements_in : string :=
  "redis==5.0.1" ++ String SubstSdkRequirements.LF
    ("git+https://${GITHUB_TOKEN}@github.com/BillieLoans/sdk.git"
       ++ String SubstSdkRequirements.LF "# git+https://${GITHUB_TOKEN}@example.org").

(** A build directory: the secret, the requirements, no output yet. *)
Definition requirements_files : SubstSdkRequirements.filesystem :=
  SubstSdkRequirements.MkFilesystem
    (<["/run/secrets/token" := 1%nat]> (<["requirements.txt" := 2%nat]> ∅))
    (<[1%nat := " s3cr3t" ++ String SubstSdkRequirements.LF ""]>
       (<[2%nat := requirements_in]> ∅)).

(** Every path may be opened. *)
Definition permissive (writing : bool) (path : string) : option exn := None.

(** The decimal digits of the Unicode database (version 14): the first code
    point of each run of ten. *)
Definition decimal_starts : list Z :=
  [48; 1632; 1776; 1984; 2406; 2534; 2662; 2790; 2918; 3046; 3174; 3302; 3430; 3558; 3664;
   3792; 3872; 4160; 4240; 6112; 6160; 6470; 6608; 6784; 6800; 6992; 7088; 7232; 7248; 42528;
   43216; 43264; 43472; 43504; 43600; 44016; 65296; 66720; 68912; 69734; 69872; 69942; 70096;
   70384; 70736; 70864; 71248; 71360; 71472; 71904; 72016; 72784; 73040; 73120; 92768; 92864;
   93008; 120782; 120792; 120802; 120812; 120822; 123200; 123632; 125264; 130032].

(** [unicodedata.decimal] *)
Definition decimal_of (cp : Z) : option Z :=
  match filter (fun start => (start <=? cp) && (cp <? start + 10)) decimal_starts with
  | start :: _ => Some (cp - start)
  | [] => None
  end.

(** CPython 3.11 with its default limits (recursion limit 1000, 4300
    digits), some twenty-five frames deep where the sanitizer is called. *)
Definition cpython : Interpreter := MkInterpreter 975 4300 decimal_of.

(** [n] opening brackets. *)
Fixpoint brackets (n : nat) : string :=
  match n with
  | O => EmptyString
  | S n' => String "["%char (brackets n')
  end.

(** [n] times the digit 1. *)
Fixpoint ones (n : nat) : string :=
  match n with
  | O => EmptyString
  | S n' => String "1"%char (ones n')
  end.

(** Scripts for [_process_message] on [account_created]: the answers to the
    dedup check, the SDK parser, the handler, and what follows. *)
Definition inbox : string := "inbox:billie-servicing".

Definition happy_script : list answer :=
  [Ret (PInt 0); Ret (PObj 9); Ret PNone; Ret (PBool true); Ret (PInt 1)].

Definition duplicate_script : list answer := [Ret (PInt 1); Ret (PInt 1)].

Definition boom : exn := MkExn (UserError "ValidationError") "boom".
Definition connection_lost : exn := MkExn RedisConnectionError "Connection closed by server.".
Definition timed_out : exn :=
  MkExn MongoServerSelectionTimeoutError "Server selection timeout".
Definition bad_uri : exn := MkExn MongoConfigurationError "Invalid URI scheme".
Definition no_group : exn := MkExn RedisResponseError "NOGROUP No such key or consumer group".

Definition auth_failed : exn := MkExn MongoOperationFailure "Authentication failed.".
Definition cancelled : exn := MkExn CancelledError "".

(** Scripts for [_connect]: Redis answers, then the first ping of MongoDB
    raises and, in the first script, the second one returns. *)
Definition transient_then_ok_script : list answer :=
  [Ret (PObj 1); Ret (PBool true);
   Ret (PObj 2); Ret (PObj 3); Throw timed_out; Ret PNone; Ret PNone;
   Ret (PObj 4); Ret (PObj 5); Ret (PDict [("ok", PInt 1)])].

Definition bad_uri_script : list answer :=
  [Ret (PObj 1); Ret (PBool true); Ret (PObj 2); Ret (PObj 3); Throw bad_uri].

Definition auth_failed_script : list answer :=
  [Ret (PObj 1); Ret (PBool true); Ret (PObj 2); Ret (PObj 3); Throw auth_failed].

(** The same for the MongoDB phase alone. *)
Definition mongo_phase : M unit := connect_mongo scripted 2 1.

(** Scripts for the supervisor loop.  Two reconnections fail, then a poll
    raises something else, then the task is cancelled. *)
Definition flaky_script : list answer :=
  [Throw connection_lost; Ret PNone; Throw connection_lost;
   Throw connection_lost; Ret PNone; Throw connection_lost;
   Throw boom; Ret PNone;
   Throw cancelled].

(** A longer run: three bursts, two pauses, and a cancellation at the end. *)
Definition eventful_script : list answer :=
  [Throw connection_lost; Ret PNone; Throw connection_lost;
   Throw connection_lost; Ret PNone; Throw connection_lost;
   Throw boom; Ret PNone;
   Throw connection_lost; Ret PNone; Ret PNone;
   Throw no_group; Throw connection_lost; Ret PNone; Throw connection_lost;
   Throw no_group; Ret PNone; Throw connection_lost; Ret PNone; Throw connection_lost;
   Throw connection_lost; Ret PNone; Throw connection_lost;
   Throw no_group; Ret PNone; Ret PNone;
   Throw connection_lost; Ret PNone; Throw connection_lost;
   Ret PNone;
   Throw boom; Ret PNone;
   Throw cancelled].

Definition supervise (fuel : nat) : M unit :=
  steady_state_loop scripted never_stopped test_settings fuel 1.

Definition running : processor := set_running true connected.

(** The handler raises; the append to the dead-letter stream and the ack return. *)
Definition poison_script : list answer :=
  [Ret (PInt 0); Ret (PObj 9); Throw boom; Ret (PStr "1714564800123-0"); Ret (PInt 1)].

(** The handler raises; the append returns and the connection drops at the ack. *)
Definition ack_lost_script : list answer :=
  [Ret (PInt 0); Ret (PObj 9); Throw boom; Ret (PStr "1714564800123-0");
   Throw connection_lost].

(** [_process_message] of the processor under test. *)
Definition dispatch (delivery_count : Z) : M unit :=
  _process_message scripted clock test_settings cpython account_created inbox delivery_count.

End Fixtures.

(** * Properties *)

Import Py.

(** ** [json.loads] answers every string *)

Section JsonFacts.
Import Json.

Variable py : Interpreter.

Local Abbreviation len := String.length.

Local Ltac raised := solve [simpl; unfold raised_by_loads; auto].

Lemma skip_ws_length s : (len (skip_ws s) <= len s)%nat.
Proof. induction s as [|c s IH]; simpl; [lia|]. destruct (is_ws c); simpl; lia. Qed.

Lemma take_digits_length s ds r : take_digits s = (ds, r) -> (len r <= len s)%nat.
Proof.
  revert ds r. induction s as [|c s IH]; simpl; intros ds r H.
  - inversion H; simpl; lia.
  - destruct (is_digit c).
    + destruct (take_digits s) as [ds' r'] eqn:E. inversion H; subst.
      specialize (IH _ _ eq_refl). lia.
    + inversion H; subst; simpl; lia.
Qed.

Lemma strip_prefix_length lit s r :
  strip_prefix lit s = Some r -> len s = (len lit + len r)%nat.
Proof.
  revert s. induction lit as [|a lit IH]; intros s H.
  - destruct s; inversion H; reflexivity.
  - destruct s as [|b s]; simpl in H; [congruence|].
    destruct (decide (a = b)); [|congruence]. simpl. rewrite (IH _ H). reflexivity.
Qed.

Lemma match_integer_length s t r : match_integer s = Some (t, r) -> (len r < len s)%nat.
Proof.
  unfold match_integer. intros H.
  assert (Hgen : forall sign r0, (len r0 <= len s)%nat ->
     match r0 with
     | String c r1 =>
         if decide (c = "0"%char) then Some (sign ++ "0", r1)
         else if is_digit c then
           let '(ds, r2) := take_digits r1 in Some (sign ++ String c ds, r2)
         else None
     | EmptyString => None
     end = Some (t, r) -> (len r < len s)%nat).
  { intros sign [|c r1] Hle Hm; [congruence|]. simpl in Hle.
    destruct (decide (c = "0"%char)).
    - inversion Hm; subst. lia.
    - destruct (is_digit c); [|congruence].
      destruct (take_digits r1) as [ds r2] eqn:E. inversion Hm; subst.
      apply take_digits_length in E. lia. }
  destruct s as [|c s']; [simpl in H; congruence|].
  destruct (decide (c = "-"%char)) as [->|Hc].
  - apply (Hgen "-" s'); [simpl; lia | exact H].
  - apply (Hgen "" (String c s')); [lia|].
    destruct c as [[] [] [] [] [] [] [] []]; try exact H; congruence.
Qed.

Lemma match_fraction_length s f r : match_fraction s = (f, r) -> (len r <= len s)%nat.
Proof.
  unfold match_fraction. intros H.
  repeat case_match; simplify_eq; simpl; try lia.
  match goal with E : take_digits _ = _ |- _ => apply take_digits_length in E end.
  lia.
Qed.

Lemma match_exponent_length s f r : match_exponent s = (f, r) -> (len r <= len s)%nat.
Proof.
  unfold match_exponent. intros H.
  repeat case_match; simplify_eq; simpl; try lia;
  match goal with E : take_digits _ = _ |- _ => apply take_digits_length in E end;
  lia.
Qed.

(** The conversion of an integer literal returns, or raises the
    [ValueError] of the digit limit. *)
Lemma int_of_literal_outcome lit :
  match int_of_literal py lit with
  | Returns _ => True
  | Raises e => exc_cls e = ValueError
  | Diverges => False
  end.
Proof. unfold int_of_literal. destruct (over_digit_limit py _); simpl; auto. Qed.

Lemma match_number_well s vr : match_number py s = Some vr -> scans_well s vr.
Proof.
  unfold match_number. intros H.
  destruct (match_integer s) as [[t r0]|] eqn:E0; [|congruence].
  destruct (match_fraction r0) as [f r1] eqn:E1.
  destruct (match_exponent r1) as [x r2] eqn:E2.
  apply match_integer_length in E0. apply match_fraction_length in E1.
  apply match_exponent_length in E2.
  pose proof (int_of_literal_outcome t) as Hlit.
  destruct f, x; simplify_eq; simpl; try lia.
  destruct (int_of_literal py t) as [n|e|]; simpl; [lia| |contradiction].
  unfold raised_by_loads. auto.
Qed.

Lemma scan_atom_well s : scans_well s (scan_atom py s).
Proof.
  unfold scan_atom.
  repeat match goal with
  | |- context [strip_prefix ?lit s] =>
      let E := fresh "E" in
      destruct (strip_prefix lit s) eqn:E;
      [apply strip_prefix_length in E; simpl in *; lia|]
  | |- context [match_number py s] =>
      let E := fresh "E" in
      destruct (match_number py s) as [?|] eqn:E;
      [by apply match_number_well|]
  end.
  raised.
Qed.

Lemma prepend_well s s' p (r : result (string * string)) :
  scans_well s' r -> (len s' <= len s)%nat -> scans_well s (prepend p r).
Proof. destruct r as [[? ?]| |]; simpl; intros; try lia; assumption. Qed.

Lemma scanstring_well s : scans_well s (scanstring s).
Proof.
  remember (S (len s)) as n eqn:Hn.
  assert (Hlt : (len s < n)%nat) by lia. clear Hn. revert s Hlt.
  induction n as [|n IH]; intros s Hlt; [lia|].
  destruct s as [|c r]; [raised|].
  cbn [scanstring].
  repeat case_match; subst; try raised; try (simpl; lia);
    (eapply prepend_well; [apply IH|]; simpl in *; lia).
Qed.

Lemma scans_well_mono {A} s s' (r : result (A * string)) :
  scans_well s' r -> (len s' <= len s)%nat -> scans_well s r.
Proof. destruct r as [[? ?]| |]; simpl; intros; try lia; assumption. Qed.

Lemma rbind_well {A B} s s' (r : result (A * string)) (k : A * string -> result (B * string)) :
  scans_well s' r -> (len s' <= len s)%nat ->
  (forall a rest, (len rest < len s')%nat -> scans_well s (k (a, rest))) ->
  scans_well s (rbind r k).
Proof. destruct r as [[? ?]| |]; simpl; intros; auto. Qed.

Lemma scanners_well f :
  (forall d s, (2 * len s + 1 <= f)%nat -> scans_well s (scan_once py f d s)) /\
  (forall d s acc, (2 * len s + 2 <= f)%nat -> scans_well s (parse_elements py f d s acc)) /\
  (forall d s acc, (2 * len s + 2 <= f)%nat -> scans_well s (parse_members py f d s acc)).
Proof.
  induction f as [|f (IHscan & IHelems & IHmembers)].
  { repeat split; intros; lia. }
  split; [|split].
  - intros d s Hf. destruct s as [|c r]; [raised|].
    cbn [scan_once]. simpl in Hf.
    destruct (decide (c = dquote)).
    { eapply rbind_well; [apply scanstring_well|simpl; lia|].
      intros; simpl in *; lia. }
    destruct (decide (c = "{"%char)).
    { destruct d as [|d]; [raised|].
      pose proof (skip_ws_length r).
      destruct (skip_ws r) as [|c1 rest] eqn:E; [raised|]. simpl in *.
      repeat case_match; subst; try raised; try (simpl; lia).
      eapply scans_well_mono; [apply IHmembers|]; simpl; lia. }
    destruct (decide (c = "["%char)).
    { destruct d as [|d]; [raised|].
      pose proof (skip_ws_length r).
      destruct (skip_ws r) as [|c1 rest] eqn:E.
      - eapply scans_well_mono; [apply IHelems|]; simpl; lia.
      - simpl in *.
        repeat case_match; subst; try (simpl; lia);
          (eapply scans_well_mono; [apply IHelems|]; simpl; lia). }
    apply scan_atom_well.
  - intros d s acc Hf. cbn [parse_elements].
    eapply rbind_well; [apply IHscan; lia|lia|].
    intros v rest Hrest.
    pose proof (skip_ws_length rest).
    destruct (skip_ws rest) as [|c1 rest'] eqn:E; [raised|]. simpl in *.
    repeat case_match; subst; try raised; try (simpl; lia).
    pose proof (skip_ws_length rest').
    eapply scans_well_mono; [apply IHelems|]; simpl; lia.
  - intros d s acc Hf. cbn [parse_members].
    eapply rbind_well; [apply scanstring_well|lia|].
    intros key rest Hrest.
    pose proof (skip_ws_length rest).
    destruct (skip_ws rest) as [|c1 rest1] eqn:E; [raised|]. simpl in *.
    assert (Hval : scans_well s
      (rbind (scan_once py f d (skip_ws rest1)) (fun '(v, rest2) =>
              match skip_ws rest2 with
              | String "}"%char rest3 => Returns (PDict (dict_set key v acc), rest3)
              | String ","%char rest3 =>
                  match skip_ws rest3 with
                  | String c4 rest4 =>
                      if decide (c4 = dquote)
                      then parse_members py f d rest4 (dict_set key v acc)
                      else Raises (error "Expecting property name enclosed in double quotes")
                  | EmptyString =>
                      Raises (error "Expecting property name enclosed in double quotes")
                  end
              | _ => Raises (error "Expecting ',' delimiter")
              end))).
    { pose proof (skip_ws_length rest1).
      eapply rbind_well; [apply IHscan; lia|lia|].
      intros v rest2 Hrest2.
      pose proof (skip_ws_length rest2).
      destruct (skip_ws rest2) as [|c2 rest3] eqn:E2; [raised|]. simpl in *.
      pose proof (skip_ws_length rest3).
      destruct (skip_ws rest3) as [|c3 rest4] eqn:E3.
      - repeat case_match; subst; try raised; simpl; lia.
      - simpl in *.
        repeat case_match; subst; try raised; try (simpl; lia);
          (eapply scans_well_mono; [apply IHmembers|]; simpl; lia). }
    repeat case_match; subst; try raised; exact Hval.
Qed.

(** [json.loads] returns or raises, and what it raises is a
    [JSONDecodeError], a [RecursionError] or a [ValueError]. *)
Lemma loads_returns_or_raises s :
  match loads py s with
  | Returns _ => True
  | Raises e => raised_by_loads (exc_cls e)
  | Diverges => False
  end.
Proof.
  unfold loads. destruct (String.prefix bom s); [raised|].
  pose proof (skip_ws_length s).
  destruct (scanners_well (enough_fuel s)) as [Hscan _].
  specialize (Hscan (recursion_budget py) (skip_ws s)). unfold enough_fuel in *.
  destruct (scan_once _ _ _ _) as [[v rest]| |]; simpl in *.
  - destruct (skip_ws rest); simpl; auto. raised.
  - apply Hscan; lia.
  - apply Hscan; lia.
Qed.

End JsonFacts.

(** ** The sanitizer *)

Section SanitizerFacts.
Import Processor Coercions Escaping.

Variable py : Interpreter.

(** [int] on a string returns or raises [ValueError]. *)
Lemma int_of_str_returns_or_raises s :
  match int_of_str py s with
  | Returns _ => True
  | Raises e => exc_cls e = ValueError
  | Diverges => False
  end.
Proof.
  unfold int_of_str, long_from_string.
  generalize (to_ascii py (map fst (chars s))). intros t.
  match goal with
  | |- context [match ?x with (_, _) => _ end] => destruct x as [sign t2]
  end.
  repeat case_match; simplify_eq; simpl; auto.
Qed.

Lemma insert_as_alter (f : pyval -> pyval) k v (m : gmap string pyval) :
  m !! k = Some v -> <[k := f v]> m = alter f k m.
Proof.
  intros H. apply map_eq. intros j. rewrite lookup_alter, lookup_insert.
  destruct (decide (k = j)) as [->|]; [rewrite H|]; reflexivity.
Qed.

Lemma alter_missing (f : pyval -> pyval) k (m : gmap string pyval) :
  m !! k = None -> alter f k m = m.
Proof.
  intros H. apply map_eq. intros j. rewrite lookup_alter.
  destruct (decide (k = j)) as [->|]; [rewrite H|]; reflexivity.
Qed.

(** The block that fixes [c_seq], and again [seq]. *)
Lemma fix_seq_block k (m : gmap string pyval) :
  match m !! k with
  | Some v =>
      if eq_empty_str v || is_none v then Returns (<[k := PInt 0]> m)
      else match v with
           | PStr s =>
               rtry (n ← int_of_str py s; Returns (<[k := PInt n]> m))
                    (fun e => if isinstance e ValueError
                              then Some (Returns (<[k := PInt 0]> m))
                              else None)
           | _ => Returns m
           end
  | None => Returns m
  end = Returns (alter (coerce_seq py) k m).
Proof.
  destruct (m !! k) as [v|] eqn:Hk; [|by rewrite alter_missing].
  rewrite <- (insert_as_alter (coerce_seq py) k v m Hk).
  destruct v as [| | | |s| | |]; simpl; try reflexivity; try (by rewrite insert_id).
  pose proof (int_of_str_returns_or_raises s) as Hint.
  destruct s as [|c s']; [reflexivity|]. simpl.
  unfold mbind, result_bind.
  destruct (int_of_str py (String c s')) as [n|e|]; simpl; [reflexivity| |contradiction].
  unfold isinstance. rewrite Hint. reflexivity.
Qed.

Lemma fix_rec_block (m : gmap string pyval) :
  match m !! "rec" with
  | Some v =>
      match v with
      | PStr s =>
          rtry (parsed ← Json.loads py s; Returns (<["rec" := parsed]> m))
               (fun e => if isinstance e JSONDecodeError
                         then Some (Returns (<["rec" := if truthy v then PList [v]
                                                        else PList []]> m))
                         else None)
      | PNone => Returns (<["rec" := PList []]> m)
      | _ => Returns m
      end
  | None => Returns m
  end = block_outcome (escapes py (m !! "rec")) (alter (coerce_rec py) "rec" m).
Proof.
  destruct (m !! "rec") as [v|] eqn:Hk; [|by rewrite alter_missing].
  rewrite <- (insert_as_alter (coerce_rec py) "rec" v m Hk).
  destruct v as [| | | |s| | |]; simpl; try reflexivity; try (by rewrite insert_id).
  pose proof (loads_returns_or_raises py s) as Hloads.
  unfold mbind, result_bind.
  destruct (Json.loads py s) as [p|e|]; simpl; [reflexivity| |contradiction].
  destruct (isinstance e JSONDecodeError); [|reflexivity].
  simpl. destruct s; reflexivity.
Qed.

Lemma fix_dat_block (m : gmap string pyval) :
  match m !! "dat" with
  | Some (PStr s) =>
      rtry (parsed ← Json.loads py s; Returns (<["dat" := parsed]> m))
           (fun e => if isinstance e JSONDecodeError then Some (Returns m) else None)
  | _ => Returns m
  end = block_outcome (escapes py (m !! "dat")) (alter (coerce_dat py) "dat" m).
Proof.
  destruct (m !! "dat") as [v|] eqn:Hk; [|by rewrite alter_missing].
  rewrite <- (insert_as_alter (coerce_dat py) "dat" v m Hk).
  destruct v as [| | | |s| | |]; simpl; try reflexivity; try (by rewrite insert_id).
  pose proof (loads_returns_or_raises py s) as Hloads.
  unfold mbind, result_bind.
  destruct (Json.loads py s) as [p|e|]; simpl; [reflexivity| |contradiction].
  destruct (isinstance e JSONDecodeError); [|reflexivity].
  simpl. by rewrite insert_id.
Qed.

(** [sanitize_envelope] raises what escapes the decoding of [rec] or, after
    it, of [dat]; otherwise it returns the map with the coercions of the
    specification. *)
Lemma sanitize_envelope_outcome data :
  sanitize_envelope py data =
    match escapes py (data !! "rec") with
    | Some e => Raises e
    | None => block_outcome (escapes py (data !! "dat")) (coerced py data)
    end.
Proof.
  unfold sanitize_envelope, coerced.
  rewrite fix_seq_block. unfold mbind at 1, result_bind at 1; cbn [rbind].
  rewrite fix_seq_block. unfold mbind at 1, result_bind at 1; cbn [rbind].
  rewrite fix_rec_block.
  rewrite !lookup_alter_ne by discriminate.
  destruct (escapes py (data !! "rec")) as [e|]; [reflexivity|].
  unfold block_outcome at 1. unfold mbind at 1, result_bind at 1; cbn [rbind].
  rewrite fix_dat_block.
  rewrite !lookup_alter_ne by discriminate.
  destruct (escapes py (data !! "dat")) as [e|]; reflexivity.
Qed.

(** What [sanitize_envelope] returns, when it returns. *)
Lemma sanitize_envelope_coerced data r :
  sanitize_envelope py data = Returns r -> r = coerced py data.
Proof.
  rewrite sanitize_envelope_outcome. unfold block_outcome.
  repeat case_match; congruence.
Qed.

(** What escapes is a [RecursionError] or a [ValueError] of [json.loads]. *)
Lemma escapes_class field e :
  escapes py field = Some e ->
  isinstance e Exception = true /\ isinstance_any e connection_errors = false.
Proof.
  unfold escapes. intros H.
  destruct field as [[| | | |s| | |]|]; try discriminate.
  pose proof (loads_returns_or_raises py s) as Hloads.
  destruct (Json.loads py s) as [p|e'|]; try discriminate.
  destruct (isinstance e' JSONDecodeError) eqn:Hj; [discriminate|].
  injection H as ->.
  destruct e as [c m]. simpl in Hloads.
  destruct Hloads as [-> | [-> | ->]]; [discriminate Hj| |]; split; reflexivity.
Qed.

(** [sanitize_envelope] returns or raises, and what it raises is an
    [Exception] that is not connection-class. *)
Lemma sanitize_envelope_answers data :
  match sanitize_envelope py data with
  | Returns r => r = coerced py data
  | Raises e => isinstance e Exception = true /\ isinstance_any e connection_errors = false
  | Diverges => False
  end.
Proof.
  rewrite sanitize_envelope_outcome. unfold block_outcome.
  destruct (escapes py (data !! "rec")) as [e|] eqn:Hrec; [by eapply escapes_class|].
  destruct (escapes py (data !! "dat")) as [e|] eqn:Hdat; [by eapply escapes_class|].
  reflexivity.
Qed.

End SanitizerFacts.

Section SanitizerClaims.
Import Processor Coercions Escaping Fixtures.

Lemma brackets_length n : String.length (brackets n) = n.
Proof. induction n as [|n IH]; simpl; congruence. Qed.

(** One array more than the interpreter allows: the scanner raises at the
    innermost bracket. *)
Lemma scan_once_enters_array py fuel depth r :
  Json.scan_once py (S fuel) (S depth) (String "["%char (String "["%char r)) =
  Json.parse_elements py fuel depth (String "["%char r) [].
Proof. reflexivity. Qed.

Lemma scan_once_too_deep py depth fuel :
  (2 * depth + 1 <= fuel)%nat ->
  Json.scan_once py fuel depth (brackets (S depth)) = Raises (Json.recursion_error "array").
Proof.
  revert fuel. induction depth as [|depth IH]; intros fuel Hfuel.
  - destruct fuel as [|fuel]; [lia|]. reflexivity.
  - destruct fuel as [|[|fuel]]; [lia|lia|].
    change (brackets (S (S depth))) with (String "["%char (String "["%char (brackets depth))).
    rewrite scan_once_enters_array.
    change (String "["%char (brackets depth)) with (brackets (S depth)).
    cbn [Json.parse_elements]. rewrite IH by lia. reflexivity.
Qed.

Lemma loads_too_deep py :
  Json.loads py (brackets (S (recursion_budget py))) = Raises (Json.recursion_error "array").
Proof.
  unfold Json.loads.
  change (String.prefix Json.bom (brackets (S (recursion_budget py)))) with false.
  cbn iota.
  change (Json.skip_ws (brackets (S (recursion_budget py))))
    with (brackets (S (recursion_budget py))).
  rewrite scan_once_too_deep; [reflexivity|].
  unfold Json.enough_fuel. rewrite brackets_length. lia.
Qed.

(** C4.  [sanitize_envelope] does not return on every field map.  Whatever
    nesting the interpreter leaves to [json.loads], a [dat] that opens one
    array more makes it raise [RecursionError], which is no
    [json.JSONDecodeError]: the [except] clause lets it pass and the sanitizer
    raises it. *)
Theorem sanitize_envelope_raises (py : Interpreter) :
  sanitize_envelope py (<["dat" := PStr (brackets (S (recursion_budget py)))]> ∅) =
    Raises (Json.recursion_error "array").
Proof.
  rewrite sanitize_envelope_outcome.
  rewrite lookup_insert_ne by discriminate. rewrite lookup_empty.
  rewrite lookup_insert_eq. cbn [escapes]. rewrite loads_too_deep. reflexivity.
Qed.

(** With the default limits: 976 brackets in [dat], or an integer of 4301
    digits in [rec], and the sanitizer raises. *)
Lemma sanitize_envelope_not_total :
  sanitize_envelope cpython (<["dat" := PStr (brackets 976)]> ∅) =
    Raises (Json.recursion_error "array") /\
  sanitize_envelope cpython (<["rec" := PStr (ones 4301)]> ∅) =
    Raises (too_many_digits 4300 4301) /\
  ~ (forall data : gmap string pyval, exists r, sanitize_envelope cpython data = Returns r).
Proof.
  assert (Hdeep : sanitize_envelope cpython (<["dat" := PStr (brackets 976)]> ∅) =
                  Raises (Json.recursion_error "array")) by (vm_compute; reflexivity).
  split; [exact Hdeep|]. split; [vm_compute; reflexivity|].
  intros Htotal. destruct (Htotal (<["dat" := PStr (brackets 976)]> ∅)) as [r Hr].
  rewrite Hdeep in Hr. discriminate.
Qed.

Lemma coerced_lookup_seq py data k :
  k = "c_seq" \/ k = "seq" -> coerced py data !! k = coerce_seq py <$> data !! k.
Proof.
  unfold coerced. intros [-> | ->];
    repeat (rewrite lookup_alter; simpl); reflexivity.
Qed.

Lemma sanitize_envelope_returns py data :
  escapes py (data !! "rec") = None -> escapes py (data !! "dat") = None ->
  sanitize_envelope py data = Returns (coerced py data).
Proof. intros Hrec Hdat. rewrite sanitize_envelope_outcome, Hrec, Hdat. reflexivity. Qed.

(** C7.  When nothing escapes the decoding of [rec] and of [dat],
    [sanitize_envelope] returns; and in what it returns the field [c_seq] (and
    likewise [seq]): is still missing when it was missing; is the integer 0
    when its value was the empty string, [None], or a text that [int]
    rejects; and is the integer that [int] reads when its value was a numeric
    text. *)
Theorem sanitize_envelope_seq_fields (py : Interpreter) (data : gmap string pyval)
    (k : string) :
  k = "c_seq" \/ k = "seq" ->
  (escapes py (data !! "rec") = None -> escapes py (data !! "dat") = None ->
   exists r, sanitize_envelope py data = Returns r) /\
  (forall r, sanitize_envelope py data = Returns r ->
    (data !! k = None -> r !! k = None) /\
    (data !! k = Some (PStr "") \/ data !! k = Some PNone -> r !! k = Some (PInt 0)) /\
    (forall s e, data !! k = Some (PStr s) -> int_of_str py s = Raises e ->
       r !! k = Some (PInt 0)) /\
    (forall s n, data !! k = Some (PStr s) -> int_of_str py s = Returns n ->
       r !! k = Some (PInt n))).
Proof.
  intros Hk. split.
  { intros Hrec Hdat. eexists. by apply sanitize_envelope_returns. }
  intros r Hr. apply sanitize_envelope_coerced in Hr as ->.
  rewrite (coerced_lookup_seq py data k Hk).
  repeat split.
  - intros ->. reflexivity.
  - intros [-> | ->]; reflexivity.
  - intros s e -> Hs. simpl. rewrite Hs. reflexivity.
  - intros s n -> Hs. simpl. rewrite Hs. reflexivity.
Qed.

Lemma sanitize_envelope_seq_fields_witness :
  (exists r, sanitize_envelope cpython (<["c_seq" := PStr "7"]> ∅) = Returns r /\
     r !! "c_seq" = Some (PInt 7) /\ r !! "seq" = None) /\
  (exists r, sanitize_envelope cpython (<["seq" := PStr ""]> (<["c_seq" := PNone]> ∅))
             = Returns r /\
     r !! "seq" = Some (PInt 0) /\ r !! "c_seq" = Some (PInt 0)) /\
  (exists r, sanitize_envelope cpython (<["c_seq" := PStr "seven"]> ∅) = Returns r /\
     r !! "c_seq" = Some (PInt 0)) /\
  (exists r, sanitize_envelope cpython (<["seq" := PStr " +1_000 "]> ∅) = Returns r /\
     r !! "seq" = Some (PInt 1000)).
Proof.
  split; [|split; [|split]].
  - destruct (sanitize_envelope_seq_fields cpython (<["c_seq" := PStr "7"]> ∅) "c_seq"
                (or_introl eq_refl)) as [Hreturns Hfields].
    destruct (sanitize_envelope_seq_fields cpython (<["c_seq" := PStr "7"]> ∅) "seq"
                (or_intror eq_refl)) as [_ Hfields'].
    destruct (Hreturns eq_refl eq_refl) as [r Hr].
    destruct (Hfields r Hr) as (_ & _ & _ & Hnum).
    destruct (Hfields' r Hr) as (Hmiss & _).
    exists r. split; [exact Hr|]. split.
    + apply (Hnum "7" 7); reflexivity.
    + apply Hmiss. reflexivity.
  - destruct (sanitize_envelope_seq_fields cpython
                (<["seq" := PStr ""]> (<["c_seq" := PNone]> ∅)) "seq" (or_intror eq_refl))
      as [Hreturns Hfields].
    destruct (sanitize_envelope_seq_fields cpython
                (<["seq" := PStr ""]> (<["c_seq" := PNone]> ∅)) "c_seq" (or_introl eq_refl))
      as [_ Hfields'].
    destruct (Hreturns eq_refl eq_refl) as [r Hr].
    destruct (Hfields r Hr) as (_ & Hzero & _).
    destruct (Hfields' r Hr) as (_ & Hzero' & _).
    exists r. split; [exact Hr|]. split.
    + apply Hzero. left. reflexivity.
    + apply Hzero'. right. reflexivity.
  - destruct (sanitize_envelope_seq_fields cpython (<["c_seq" := PStr "seven"]> ∅) "c_seq"
                (or_introl eq_refl)) as [Hreturns Hfields].
    destruct (Hreturns eq_refl eq_refl) as [r Hr].
    destruct (Hfields r Hr) as (_ & _ & Hbad & _).
    exists r. split; [exact Hr|].
    apply (Hbad "seven" (invalid_literal "seven")); reflexivity.
  - destruct (sanitize_envelope_seq_fields cpython (<["seq" := PStr " +1_000 "]> ∅) "seq"
                (or_intror eq_refl)) as [Hreturns Hfields].
    destruct (Hreturns eq_refl eq_refl) as [r Hr].
    destruct (Hfields r Hr) as (_ & _ & _ & Hnum).
    exists r. split; [exact Hr|].
    apply (Hnum " +1_000 " 1000); reflexivity.
Defined.

(** C9.  When the value of [rec] is a text that [json.loads] decodes to
    something that is not a list, [sanitize_envelope] returns unless the
    decoding of [dat] lets an exception escape, and what it returns holds that
    decoded value under [rec]: a list is not guaranteed there. *)
Theorem sanitize_envelope_rec_not_list (py : Interpreter) (data : gmap string pyval)
    (s : string) (v : pyval) :
  data !! "rec" = Some (PStr s) ->
  Json.loads py s = Returns v ->
  is_list v = false ->
  (escapes py (data !! "dat") = None -> exists r, sanitize_envelope py data = Returns r) /\
  (forall r, sanitize_envelope py data = Returns r ->
     r !! "rec" = Some v /\ forall l, r !! "rec" <> Some (PList l)).
Proof.
  intros Hrec Hloads Hv. split.
  { intros Hdat. eexists. apply sanitize_envelope_returns; [|exact Hdat].
    rewrite Hrec. cbn [escapes]. rewrite Hloads. reflexivity. }
  intros r Hr. apply sanitize_envelope_coerced in Hr as ->.
  assert (Hlook : coerced py data !! "rec" = Some v).
  { unfold coerced. repeat (rewrite lookup_alter; simpl).
    rewrite Hrec. simpl. rewrite Hloads. reflexivity. }
  split; [exact Hlook|].
  intros l Hl. rewrite Hlook in Hl. inversion Hl; subst. discriminate.
Qed.

Lemma sanitize_envelope_rec_not_list_witness :
  (exists r, sanitize_envelope cpython (<["rec" := PStr "5"]> ∅) = Returns r /\
     r !! "rec" = Some (PInt 5) /\ forall l, r !! "rec" <> Some (PList l)) /\
  (exists r, sanitize_envelope cpython (<["rec" := PStr quoted_x]> ∅) = Returns r /\
     r !! "rec" = Some (PStr "x") /\ forall l, r !! "rec" <> Some (PList l)).
Proof.
  split.
  - assert (Hrec : (<["rec" := PStr "5"]> ∅ : gmap string pyval) !! "rec" = Some (PStr "5"))
      by reflexivity.
    assert (Hloads : Json.loads cpython "5" = Returns (PInt 5)) by reflexivity.
    destruct (sanitize_envelope_rec_not_list cpython _ "5" (PInt 5) Hrec Hloads eq_refl)
      as [Hreturns Hfield].
    destruct (Hreturns eq_refl) as [r Hr].
    exists r. split; [exact Hr|]. exact (Hfield r Hr).
  - assert (Hrec : (<["rec" := PStr quoted_x]> ∅ : gmap string pyval) !! "rec"
                   = Some (PStr quoted_x)) by reflexivity.
    assert (Hloads : Json.loads cpython quoted_x = Returns (PStr "x")) by reflexivity.
    destruct (sanitize_envelope_rec_not_list cpython _ quoted_x (PStr "x") Hrec Hloads eq_refl)
      as [Hreturns Hfield].
    destruct (Hreturns eq_refl) as [r Hr].
    exists r. split; [exact Hr|]. exact (Hfield r Hr).
Defined.

End SanitizerClaims.

(** ** The requirements script *)

Section ScriptClaims.
Import SubstSdkRequirements Fixtures.

Variable refused : bool -> string -> option exn.
Variable chunk_size : nat.

Lemma append_empty (s : string) : s ++ "" = s.
Proof.
  induction s as [|c s IH]; [reflexivity|].
  change (String c (s ++ "") = String c s). by rewrite IH.
Qed.

Lemma append_assoc (a b c : string) : (a ++ b) ++ c = a ++ (b ++ c).
Proof.
  induction a as [|x a IH]; [reflexivity|].
  change (String x ((a ++ b) ++ c) = String x (a ++ (b ++ c))). by rewrite IH.
Qed.

Lemma concat_cons (x : string) (xs : list string) :
  String.concat "" (x :: xs) = x ++ String.concat "" xs.
Proof. destruct xs; [apply eq_sym, append_empty | reflexivity]. Qed.

Lemma write_lines_filter token lines out :
  write_lines token lines out =
  out ++ String.concat "" (map (replace placeholder token) (List.filter kept lines)).
Proof.
  revert out. induction lines as [|line rest IH]; intros out.
  - simpl. by rewrite append_empty.
  - cbn [write_lines List.filter]. fold (kept line).
    destruct (kept line); rewrite IH; [|reflexivity].
    cbn [map]. by rewrite concat_cons, append_assoc.
Qed.

(** When the file decodes, the loop goes through all its lines. *)
Lemma read_lines_of_text (b : string) :
  utf8_valid b = true -> read_lines chunk_size b = (readlines b, None).
Proof. intros H. unfold read_lines. rewrite H. reflexivity. Qed.

(** C10.  Whatever the input requirements file holds, once the secret has
    been read and both files are open, the output file ends up holding exactly
    the lines read from the input that start with [git+https] once stripped
    and contain [${GITHUB_TOKEN}], each with the placeholder replaced by the
    token, in their order; every other line is left out.  The lines read are
    all the lines of the input, unless it does not decode: then they are the
    lines read before [UnicodeDecodeError] is raised, which [main] raises in
    turn.  (When the output is the input, by its path or by a link, the file
    is emptied before it is read, and there are no lines.) *)
Theorem main_writes_matching_lines (prog secret_path req_in req_out : string)
    (fs fs1 : filesystem) (token : string) (f out : nat) :
  read_token refused fs secret_path = Returns token ->
  open_r refused fs req_in = Returns f ->
  open_w refused fs req_out = (fs1, Returns out) ->
  let reading := read_lines chunk_size (content fs1 f) in
  main refused chunk_size [prog; secret_path; req_in; req_out] fs =
    (store fs1 out
       (String.concat "" (map (replace placeholder token) (List.filter kept reading.1))),
     match reading.2 with
     | Some e => Raises e
     | None => Returns tt
     end)
  /\ (utf8_valid (content fs1 f) = true -> reading = (readlines (content fs1 f), None)).
Proof.
  intros Htoken Hin Hout reading. split; [|apply read_lines_of_text].
  unfold main. rewrite Htoken, Hin, Hout. fold reading.
  destruct reading as [lines failure]. cbn [fst snd].
  rewrite write_lines_filter. reflexivity.
Qed.

End ScriptClaims.

Section ScriptWitness.
Import SubstSdkRequirements Fixtures.

Lemma main_writes_matching_lines_witness :
  let after :=
    main permissive default_chunk_size
      ["subst-sdk-requirements.py"; "/run/secrets/token"; "requirements.txt"; "out.txt"]
      requirements_files in
  after.2 = Returns tt /\
  inode_of after.1 !! "out.txt" = Some 3%nat /\
  content after.1 3 = "git+https://s3cr3t@github.com/BillieLoans/sdk.git" ++ String LF "" /\
  content after.1 2 = requirements_in.
Proof.
  pose (fs1 := MkFilesystem (<["out.txt" := 3%nat]> (inode_of requirements_files))
                 (<[3%nat := ""]> (bytes_of requirements_files))).
  assert (Htoken : read_token permissive requirements_files "/run/secrets/token"
                   = Returns "s3cr3t") by (vm_compute; reflexivity).
  assert (Hin : open_r permissive requirements_files "requirements.txt" = Returns 2%nat)
    by (vm_compute; reflexivity).
  assert (Hout : open_w permissive requirements_files "out.txt" = (fs1, Returns 3%nat))
    by (vm_compute; reflexivity).
  destruct (main_writes_matching_lines permissive default_chunk_size
              "subst-sdk-requirements.py"
              "/run/secrets/token" "requirements.txt" "out.txt" requirements_files fs1
              "s3cr3t" 2 3 Htoken Hin Hout) as [Hmain _].
  cbv zeta. rewrite Hmain. vm_compute. repeat split; reflexivity.
Defined.

End ScriptWitness.

(** ** One dispatch: [_process_message] *)

(** Splitting a trace around one of its calls. *)

Lemma split_cons {A} (x : A) t l1 ev l2 :
  x :: t = (l1 ++ ev :: l2)%list ->
  (l1 = [] /\ ev = x /\ l2 = t) \/ (exists l1', l1 = x :: l1' /\ t = (l1' ++ ev :: l2)%list).
Proof.
  destruct l1 as [|y l1]; simpl; intros H; inversion H; subst; [left|right]; eauto.
Qed.

Lemma split_nil {A} (l1 : list A) ev l2 : [] = (l1 ++ ev :: l2)%list -> False.
Proof. destruct l1; discriminate. Qed.

Ltac split_trace H :=
  repeat match type of H with
  | [] = _ => exfalso; exact (split_nil _ _ _ H)
  | _ :: _ = _ =>
      let l := fresh "l" in
      let H1 := fresh "H" in
      let H2 := fresh "H" in
      let H3 := fresh "H" in
      apply split_cons in H;
      destruct H as [(H1 & H2 & H3) | (l & H1 & H)];
      [ simplify_eq | subst ]
  end.

(** Symbolic execution of a computation: case analysis on each answer of the
    environment and on each test, in program order. *)
Ltac exec_step respond :=
  match goal with
  | |- context [respond ?w ?c] =>
      let E := fresh "E" in destruct (respond w c) as [? [?|?]] eqn:E
  | |- context [match Processor.sanitize_envelope ?py ?d with _ => _ end] =>
      let Hsan := fresh "Hsan" in
      let Hclass := fresh "Hclass" in
      let Hother := fresh "Hother" in
      pose proof (sanitize_envelope_answers py d) as Hsan;
      destruct (Processor.sanitize_envelope py d) as [?|?|];
      [subst | destruct Hsan as [Hclass Hother] | contradiction]
  | |- context [if ?b then _ else _] => let E := fresh "E" in destruct b eqn:E
  | |- context [match ?r with Returns _ => _ | Raises _ => _ | Diverges => _ end] =>
      let E := fresh "E" in destruct r eqn:E
  end.

Ltac exec_simpl :=
  cbn -[Processor.sanitize_envelope lookup fmap insert isinstance isinstance_any
        startswith contains truthy Z.leb Z.min].

Ltac exec respond :=
  unfold Processor.calls_of, Processor.outcome_of, Processor._process_message,
    Processor._parse_event, Processor._move_to_dlq, Processor.redis_call,
    Processor.try_except, Processor.lift, Processor.perform, Processor.get_self,
    Processor.get_world, Processor.raise, mbind, Processor.M_bind, mret,
    Processor.M_ret, decode, Processor.decode_fields;
  exec_simpl;
  repeat (exec_step respond; exec_simpl; try congruence).

Ltac by_cases_of_trace H :=
  split_trace H; simpl in *; try discriminate.

Ltac last_is_append :=
  first [ eexists [], _, _, _; reflexivity
        | eexists [_], _, _, _; reflexivity
        | eexists [_; _], _, _, _; reflexivity
        | eexists [_; _; _], _, _, _; reflexivity
        | eexists [_; _; _; _], _, _, _; reflexivity ].

Section Dispatch.
Import Processor Delivery.
Context {W : Type} (respond : W -> call -> W * answer) (clock : W -> string)
  (settings : Settings) (python : Interpreter).

(** C1, as amended.  In every dispatch the dedup marker is written only
    after the handler has returned, and an ack comes after both; when the
    handler raises no marker is written, and the message is acked only if the
    delivery count has reached [max_retries], right after its entry was
    appended to the dead-letter stream. *)
Theorem dispatch_ack_safety message stream dc (s : pstate) :
  let t := calls_of (_process_message respond clock settings python message stream dc) s in
  mark_follows_commit t /\ ack_follows_mark t /\
  no_mark_when_handler_raises t /\ ack_only_after_dlq_append settings dc t.
Proof.
  destruct message as [message_id fields]. intros t. subst t.
  exec respond.
  all: split; [|split; [|split]].
  all: match goal with
       | |- mark_follows_commit _ =>
           intros l1 ev l2 H Hev; by_cases_of_trace H; reflexivity
       | |- ack_follows_mark _ =>
           intros l1 ev l2 H Hev; by_cases_of_trace H;
           (split; [reflexivity | intros; solve [discriminate | reflexivity]])
       | |- no_mark_when_handler_raises _ =>
           intros Hr; simpl in *; solve [discriminate | reflexivity]
       | |- ack_only_after_dlq_append _ _ _ =>
           intros Hr l1 ev l2 H Hev; simpl in Hr; try discriminate;
           by_cases_of_trace H;
           (split; [apply Z.leb_le; assumption | last_is_append])
       end.
Qed.

(** C2, as amended.  When the handler or the parser raises an exception that
    is not connection-class and the delivery count has reached [max_retries],
    the entry (the original fields with [original_message_id], [error] and
    [moved_at]) is appended to the dead-letter stream, and then: (a) the append
    returned, the ack of the original is the next and last call, and the
    message is acked when that call returns; or (b) the append raised and no
    ack is issued.  A connection-class failure of the append or of the ack is
    swallowed; any other propagates. *)
Theorem dispatch_dlq_transfer message stream dc (s : pstate) :
  let t := calls_of (_process_message respond clock settings python message stream dc) s in
  let r := outcome_of (_process_message respond clock settings python message stream dc) s in
  max_retries settings <= dc ->
  forall l1 c e l2, t = (l1 ++ (c, Throw e) :: l2)%list ->
    handler_or_parser c = true ->
    isinstance e Exception = true ->
    isinstance_any e connection_errors = false ->
    exists client moved_at,
      let entry :=
        <["moved_at" := moved_at]>
          (<["error" := str_of_exn e]> (<["original_message_id" := message.1]> message.2)) in
      let append := Redis client (XADD (dlq_stream settings) entry) in
      let ack := Redis client (XACK stream (consumer_group settings) message.1) in
      (exists v a,
         l2 = [(append, Ret v); (ack, a)] /\
         r = match a with
             | Ret _ => Returns tt
             | Throw e' => if isinstance_any e' connection_errors then Returns tt
                           else Raises e'
             end) \/
      (exists e',
         l2 = [(append, Throw e')] /\
         r = if isinstance_any e' connection_errors then Returns tt else Raises e').
Proof.
  destruct message as [message_id fields]. intros t r Hdc. subst t r.
  apply Z.leb_le in Hdc.
  exec respond.
  all: intros l1 c e' l2 H Hc Hexc Hconn; by_cases_of_trace H.
  all: try congruence.
  all: eexists _, _; cbn zeta.
  all: first [ left; eexists _, _; split; [reflexivity|]; simpl; try reflexivity
             | right; eexists _; split; [reflexivity|]; simpl; try reflexivity ].
  all: repeat match goal with
       | H : ?b = _ |- context [if ?b then _ else _] => rewrite H
       end; try reflexivity.
Qed.

(** C8.  When the dedup check of a dispatch finds the key
    [dedup:<stream>:<entry-id>] of the message, no handler is invoked and the
    next call is the ack of that message; when the ack returns it is the last
    call and the dispatch returns. *)
Theorem duplicate_acked_without_handler message stream dc (s : pstate) client key v l :
  let t := calls_of (_process_message respond clock settings python message stream dc) s in
  let r := outcome_of (_process_message respond clock settings python message stream dc) s in
  t = (Redis client (EXISTS key), Ret v) :: l ->
  truthy v = true ->
  key = dedup_key_of stream message.1 /\
  existsb is_handler t = false /\
  exists a l',
    l = (Redis client (XACK stream (consumer_group settings) message.1), a) :: l' /\
    (returned (Redis client (XACK stream (consumer_group settings) message.1), a) = true ->
     l' = [] /\ r = Returns tt).
Proof.
  destruct message as [message_id fields]. intros t r. subst t r.
  exec respond.
  all: intros H Hv; try discriminate; inversion H; subst; try congruence.
  all: split; [reflexivity|]; split; [reflexivity|].
  all: eexists _, _; split; [reflexivity|]; simpl; intros; try discriminate; auto.
Qed.
End Dispatch.

Section DeliveryRuns.
Import Processor Delivery Fixtures.

(** C1: the handler raises at the retry ceiling and the message is acked. *)
Lemma ack_after_handler_raised :
  ~ ack_safety_as_stated (calls_of (dispatch 3) (state_with poison_script connected)).
Proof.
  unfold ack_safety_as_stated. intros (_ & _ & _ & H).
  vm_compute in H. discriminate (H eq_refl).
Qed.

Lemma dispatch_ack_safety_witness :
  let t := calls_of (dispatch 3) (state_with poison_script connected) in
  existsb handler_raised t = true /\ existsb is_xack t = true /\
  mark_follows_commit t /\ ack_follows_mark t /\
  no_mark_when_handler_raises t /\ ack_only_after_dlq_append test_settings 3 t.
Proof.
  split; [vm_compute; reflexivity|]. split; [vm_compute; reflexivity|].
  exact (dispatch_ack_safety scripted clock test_settings cpython account_created inbox 3
           (state_with poison_script connected)).
Defined.

(** C2: the entry is appended and the ack is lost: neither (a) nor (b). *)
Lemma appended_but_not_acked :
  ~ dlq_finality_as_stated (calls_of (dispatch 3) (state_with ack_lost_script connected)).
Proof.
  unfold dlq_finality_as_stated. intros H. vm_compute in H.
  destruct H as [[_ H] | [H _]]; discriminate H.
Qed.

Lemma dispatch_dlq_transfer_witness :
  let t := calls_of (dispatch 3) (state_with poison_script connected) in
  let r := outcome_of (dispatch 3) (state_with poison_script connected) in
  max_retries test_settings <= 3 /\
  t = (take 2 t ++ (Handler (PObj 7) (PObj 3) (AccountEvent (PObj 9)), Throw boom)
         :: drop 3 t)%list /\
  length (drop 3 t) = 2%nat /\ r = Returns tt /\
  exists client moved_at,
    let entry :=
      <["moved_at" := moved_at]>
        (<["error" := "boom"]>
           (<["original_message_id" := account_created.1]> account_created.2)) in
    let append := Redis client (XADD (dlq_stream test_settings) entry) in
    let ack := Redis client (XACK inbox (consumer_group test_settings) account_created.1) in
    (exists v a,
       drop 3 t = [(append, Ret v); (ack, a)] /\
       r = match a with
           | Ret _ => Returns tt
           | Throw e' => if isinstance_any e' connection_errors then Returns tt
                         else Raises e'
           end) \/
    (exists e',
       drop 3 t = [(append, Throw e')] /\
       r = if isinstance_any e' connection_errors then Returns tt else Raises e').
Proof.
  intros t r.
  assert (Hdc : max_retries test_settings <= 3) by (simpl; lia).
  assert (Ht : t = (take 2 t ++ (Handler (PObj 7) (PObj 3) (AccountEvent (PObj 9)),
                                  Throw boom) :: drop 3 t)%list)
    by (vm_compute; reflexivity).
  split; [exact Hdc|]. split; [exact Ht|].
  split; [vm_compute; reflexivity|]. split; [vm_compute; reflexivity|].
  exact (dispatch_dlq_transfer scripted clock test_settings cpython account_created inbox 3
           (state_with poison_script connected) Hdc _ _ _ _ Ht eq_refl eq_refl eq_refl).
Defined.

Lemma duplicate_acked_without_handler_witness :
  let t := calls_of (dispatch 1) (state_with duplicate_script connected) in
  t = [(Redis (PObj 1) (EXISTS "dedup:inbox:billie-servicing:1714564800000-0"), Ret (PInt 1));
       (Redis (PObj 1) (XACK inbox "billie-servicing-processor" "1714564800000-0"),
        Ret (PInt 1))] /\
  existsb is_handler t = false /\
  outcome_of (dispatch 1) (state_with duplicate_script connected) = Returns tt.
Proof.
  intros t.
  assert (Ht : t = (Redis (PObj 1) (EXISTS "dedup:inbox:billie-servicing:1714564800000-0"),
                    Ret (PInt 1)) ::
                   [(Redis (PObj 1) (XACK inbox "billie-servicing-processor" "1714564800000-0"),
                     Ret (PInt 1))])
    by (vm_compute; reflexivity).
  destruct (duplicate_acked_without_handler scripted clock test_settings cpython account_created
              inbox 1
              (state_with duplicate_script connected) _ _ _ _ Ht eq_refl)
    as (_ & Hnone & a & l' & Hl & Hlast).
  injection Hl as <- <-.
  split; [exact Ht|]. split; [exact Hnone|]. exact (proj2 (Hlast eq_refl)).
Defined.

End DeliveryRuns.

(** ** The parse step *)

Section ParseEvent.
Import Processor.
Context {W : Type} (respond : W -> call -> W * answer) (python : Interpreter).

(** C3, as amended.  For an event type with none of the prefixes [account.],
    [payment.], [customer.], [application.], [_parse_event] makes no call;
    when the sanitizer returns, it returns the very map it was given: the
    coercions of the sanitizer are computed and dropped; and when the
    sanitizer raises, it raises the same. *)
Theorem parse_event_returns_given_map (event_type : string)
    (sanitized : gmap string pyval) (s : pstate) :
  startswith event_type "account." = false ->
  startswith event_type "payment." = false ->
  startswith event_type "customer." = false ->
  startswith event_type "application." = false ->
  (forall sdk_data, sanitize_envelope python sanitized = Returns sdk_data ->
     _parse_event respond python event_type sanitized s =
       (s, [], Returns (RawDict sanitized))) /\
  (forall e, sanitize_envelope python sanitized = Raises e ->
     _parse_event respond python event_type sanitized s = (s, [], Raises e)).
Proof.
  intros H1 H2 H3 H4. unfold _parse_event, lift, mbind, M_bind.
  split; [intros sdk_data Hs | intros e Hs]; rewrite Hs; [|reflexivity].
  rewrite H1, H2, H3, H4. reflexivity.
Qed.

End ParseEvent.

Section ParseEventRuns.
Import Processor Fixtures.

(** C3: the map returned for a chat event still has the text ["7"] under
    [c_seq], where the sanitized map has the integer 7. *)
Lemma parse_event_map_not_sanitized :
  ~ exists r,
      sanitize_envelope cpython chat_message = Returns r /\
      outcome_of (_parse_event scripted cpython "chat.message" chat_message)
        (state_with [] connected) = Returns (RawDict r).
Proof.
  intros (r & Hr & Hout).
  apply sanitize_envelope_coerced in Hr as ->.
  vm_compute in Hout. discriminate Hout.
Qed.

Lemma parse_event_returns_given_map_witness :
  _parse_event scripted cpython "chat.message" chat_message (state_with [] connected) =
    (state_with [] connected, [], Returns (RawDict chat_message)) /\
  chat_message !! "c_seq" = Some (PStr "7") /\
  _parse_event scripted cpython "chat.message"
    (<["dat" := PStr (brackets 976)]> chat_message) (state_with [] connected) =
    (state_with [] connected, [], Raises (Json.recursion_error "array")).
Proof.
  split; [|split; [reflexivity|]].
  - destruct (parse_event_returns_given_map scripted cpython "chat.message" chat_message
                (state_with [] connected) eq_refl eq_refl eq_refl eq_refl) as [Hreturns _].
    apply (Hreturns (Coercions.coerced cpython chat_message)). vm_compute. reflexivity.
  - destruct (parse_event_returns_given_map scripted cpython "chat.message"
                (<["dat" := PStr (brackets 976)]> chat_message)
                (state_with [] connected) eq_refl eq_refl eq_refl eq_refl) as [_ Hraises].
    apply Hraises. vm_compute. reflexivity.
Defined.

End ParseEventRuns.

(** ** Startup: [_connect] *)

Ltac exec_connect respond :=
  unfold Processor.calls_of, Processor.outcome_of;
  cbn [Processor.connect_mongo];
  unfold Processor.connect_mongo_attempt, Processor.redis_call,
    Processor.try_except, Processor.lift, Processor.perform, Processor.get_self,
    Processor.update_self,
    Processor.get_world, Processor.raise, mbind, Processor.M_bind, mret,
    Processor.M_ret;
  exec_simpl;
  repeat (first [ exec_step respond
                | match goal with
                  | |- context [Processor.connect_mongo respond ?f ?b ?s] =>
                      destruct (Processor.connect_mongo respond f b s) as [[? ?] ?]
                  end ];
          exec_simpl; try congruence).

Section Connect.
Import Processor.
Context {W : Type} (respond : W -> call -> W * answer).

(** [_connect] is the Redis phase followed, when it returns, by the MongoDB
    phase. *)
Lemma connect_phases (fuel : nat) (s : pstate) :
  outcome_of (connect_redis respond fuel 1) s = Returns tt ->
  calls_of (_connect respond fuel) s =
    (calls_of (connect_redis respond fuel 1) s
       ++ calls_of (connect_mongo respond fuel 1) (state_after (connect_redis respond fuel 1) s))%list
  /\ outcome_of (_connect respond fuel) s =
       outcome_of (connect_mongo respond fuel 1) (state_after (connect_redis respond fuel 1) s).
Proof.
  unfold _connect, calls_of, outcome_of, state_after, mbind, M_bind.
  destruct (connect_redis respond fuel 1 s) as [[s1 t1] r1]. cbn [fst snd].
  intros ->. destruct (connect_mongo respond fuel 1 s1) as [[s2 t2] r2]. split; reflexivity.
Qed.

(** A configuration error ends the MongoDB phase where it is raised, at
    whichever attempt: no call follows it. *)
Lemma connect_mongo_configuration_error_is_final (fuel : nat) (b : Z) (s : pstate) :
  forall l1 c e l2,
    calls_of (connect_mongo respond fuel b) s = (l1 ++ (c, Throw e) :: l2)%list ->
    isinstance e MongoConfigurationError = true ->
    l2 = [] /\ outcome_of (connect_mongo respond fuel b) s = Raises e.
Proof.
  revert b s. induction fuel as [|fuel IH]; intros b s l1 c e l2 H Hcfg.
  { exfalso. exact (split_nil _ _ _ H). }
  revert H.
  unfold calls_of, outcome_of. cbn [connect_mongo].
  unfold connect_mongo_attempt, try_except, perform, get_self, update_self, raise,
    mbind, M_bind, mret, M_ret.
  exec_simpl.
  repeat (first
    [ match goal with
      | |- context [connect_mongo respond fuel ?b' ?s'] =>
          let Hrec := fresh "Hrec" in
          pose proof (IH b' s') as Hrec; unfold calls_of, outcome_of in Hrec;
          destruct (connect_mongo respond fuel b' s') as [[? ?] ?]; cbn [fst snd] in Hrec
      end
    | exec_step respond ];
    exec_simpl; try congruence).
  all: intros H; by_cases_of_trace H; try congruence; eauto.
Qed.

(** C6.  In the MongoDB phase of [_connect]: a configuration error ends the
    phase where it is raised, with that error and with no call after it (no
    retry); when it is the first call that raises, the client factory has been
    called once and no sleep was taken.  When the ping of the first attempt
    raises a transient connectivity error, the next calls are the close of the
    first client, one sleep of 1 second and the factory again, and if nothing
    fails any more the phase returns with two factory calls and that single
    sleep. *)
Theorem connect_mongo_fatal_or_retried (fuel : nat) (s : pstate) :
  let uri := self_database_uri (self s) in
  let name := self_db_name (self s) in
  let t := calls_of (connect_mongo respond (S (S fuel)) 1) s in
  let r := outcome_of (connect_mongo respond (S (S fuel)) 1) s in
  (forall l1 c e l2,
     t = (l1 ++ (c, Throw e) :: l2)%list ->
     isinstance e MongoConfigurationError = true ->
     l2 = [] /\ r = Raises e) /\
  (forall l1 c e l2,
     t = (l1 ++ (c, Throw e) :: l2)%list ->
     forallb returned l1 = true ->
     isinstance e MongoConfigurationError = true ->
     count is_motor_client t = 1%nat /\ sleeps t = []) /\
  (forall client database e l2,
     t = (MotorClient uri 10000, Ret client)
           :: (MongoGetItem client name, Ret database)
           :: (DbCommand database "ping", Throw e) :: l2 ->
     truthy client = true ->
     isinstance e MongoConfigurationError = false ->
     isinstance_any e mongo_transient_errors = true ->
     exists a_close l3,
       l2 = (MongoClose client, a_close) :: l3 /\
       match a_close with
       | Throw e' => l3 = [] /\ r = Raises e'
       | Ret _ =>
           exists a_sleep l4,
             l3 = (Sleep 1, a_sleep) :: l4 /\
             match a_sleep with
             | Throw e' => l4 = [] /\ r = Raises e'
             | Ret _ =>
                 exists a_client l5,
                   l4 = (MotorClient uri 10000, a_client) :: l5 /\
                   (forallb returned l4 = true ->
                    r = Returns tt /\ sleeps t = [1] /\ count is_motor_client t = 2%nat)
             end
       end).
Proof.
  intros uri name t r. subst uri name t r.
  split; [intros l1 c e l2; apply connect_mongo_configuration_error_is_final|].
  exec_connect respond.
  all: split.
  all: try (intros l1 c err l2 H Hret Hcfg; by_cases_of_trace H; try congruence;
            repeat split; reflexivity).
  all: intros client database err l2 H Htruthy Hncfg Htrans; simplify_eq; try congruence.
  all: repeat first
         [ reflexivity
         | congruence
         | match goal with
           | |- _ /\ _ => split
           | |- exists _, _ => eexists
           | |- _ -> _ => let H := fresh in intro H; simpl in H; try discriminate H
           end
         | progress simpl ].
Qed.

End Connect.

Section ConnectRuns.
Import Processor Fixtures.

Lemma connect_mongo_fatal_or_retried_witness :
  let fatal := state_with (drop 2 bad_uri_script) fresh in
  let retried := state_with (drop 2 transient_then_ok_script) fresh in
  let t := calls_of mongo_phase retried in
  let r := outcome_of mongo_phase retried in
  (* the configuration error *)
  (outcome_of mongo_phase fatal = Raises bad_uri /\
   count is_motor_client (calls_of mongo_phase fatal) = 1%nat /\
   sleeps (calls_of mongo_phase fatal) = []) /\
  (* the transient error *)
  t = [(MotorClient "mongodb://localhost:27017" 10000, Ret (PObj 2));
       (MongoGetItem (PObj 2) "billie-servicing", Ret (PObj 3));
       (DbCommand (PObj 3) "ping", Throw timed_out);
       (MongoClose (PObj 2), Ret PNone);
       (Sleep 1, Ret PNone);
       (MotorClient "mongodb://localhost:27017" 10000, Ret (PObj 4));
       (MongoGetItem (PObj 4) "billie-servicing", Ret (PObj 5));
       (DbCommand (PObj 5) "ping", Ret (PDict [("ok", PInt 1)]))] /\
  r = Returns tt /\ sleeps t = [1] /\ count is_motor_client t = 2%nat.
Proof.
  intros fatal retried t r.
  destruct (connect_mongo_fatal_or_retried scripted 0 fatal) as (Hfinal & Hfirst & _).
  destruct (connect_mongo_fatal_or_retried scripted 0 retried) as (_ & _ & Hretried).
  split.
  - assert (Ht : calls_of mongo_phase fatal =
                 (take 2 (calls_of mongo_phase fatal)
                    ++ (DbCommand (PObj 3) "ping", Throw bad_uri) :: [])%list)
      by (vm_compute; reflexivity).
    destruct (Hfinal _ _ _ _ Ht eq_refl) as (_ & Hr).
    destruct (Hfirst _ _ _ _ Ht eq_refl eq_refl) as (Hcount & Hsleeps).
    split; [exact Hr|]. split; [exact Hcount | exact Hsleeps].
  - assert (Ht : t = (MotorClient (self_database_uri (self retried)) 10000, Ret (PObj 2))
                       :: (MongoGetItem (PObj 2) (self_db_name (self retried)), Ret (PObj 3))
                       :: (DbCommand (PObj 3) "ping", Throw timed_out) :: drop 3 t)
      by (vm_compute; reflexivity).
    destruct (Hretried _ _ _ _ Ht eq_refl eq_refl eq_refl) as (a_close & l3 & Hl2 & Hclose).
    vm_compute in Hl2. injection Hl2 as <- <-.
    destruct Hclose as (a_sleep & l4 & Hl3 & Hsleep).
    injection Hl3 as <- <-.
    destruct Hsleep as (a_client & l5 & _ & Hrest).
    split; [vm_compute; reflexivity|].
    apply Hrest. vm_compute. reflexivity.
Defined.

(** The two tests of [tests/test_processor_connect.py], on [_connect] as a
    whole.  An authentication failure is neither a configuration error nor
    transient: it propagates, after one factory call and no sleep. *)
Example connect_fails_fast_on_mongo_auth_error :
  outcome_of (_connect scripted 2) (state_with auth_failed_script fresh) = Raises auth_failed /\
  count is_motor_client (calls_of (_connect scripted 2) (state_with auth_failed_script fresh))
    = 1%nat /\
  sleeps (calls_of (_connect scripted 2) (state_with auth_failed_script fresh)) = [].
Proof. vm_compute. repeat split. Qed.

Example connect_retries_transient_mongo_error_then_succeeds :
  let after := state_after (_connect scripted 2) (state_with transient_then_ok_script fresh) in
  let t := calls_of (_connect scripted 2) (state_with transient_then_ok_script fresh) in
  outcome_of (_connect scripted 2) (state_with transient_then_ok_script fresh) = Returns tt /\
  count is_motor_client t = 2%nat /\
  sleeps t = [1] /\
  count is_mongo_close t = 1%nat /\
  mongo (self after) = PObj 4 /\ db (self after) = PObj 5.
Proof. vm_compute. repeat split. Qed.

End ConnectRuns.



(** ** The supervisor loop *)

Section BackoffFacts.
Import Processor Backoff.

Lemma backoff_after_bounds n : 1 <= backoff_after n <= max_reconnect_backoff.
Proof. unfold max_reconnect_backoff. induction n; simpl; unfold max_reconnect_backoff; lia. Qed.

Lemma backoff_after_mono n : backoff_after n <= backoff_after (S n).
Proof. pose proof (backoff_after_bounds n). simpl. unfold max_reconnect_backoff in *. lia. Qed.

Lemma schedule_S n : schedule (S n) = (schedule n ++ [backoff_after n])%list.
Proof. unfold schedule. rewrite seq_S, map_app. reflexivity. Qed.

Lemma schedule_length n : length (schedule n) = n.
Proof. unfold schedule. rewrite List.length_map, List.length_seq. reflexivity. Qed.

Lemma nondecreasing_map_from (f : nat -> Z) (start n : nat) :
  (forall k, f k <= f (S k)) -> nondecreasing (map f (seq start n)).
Proof.
  intros Hf. revert start. induction n as [|n IH]; intros start; [exact I|].
  destruct n as [|n]; [exact I|].
  change (f start <= f (S start) /\ nondecreasing (map f (seq (S start) (S n)))).
  split; [apply Hf | apply IH].
Qed.

(** A burst that follows the schedule is what the specification asks for. *)
Lemma schedule_burst_ok n : burst_ok (schedule n).
Proof.
  split; [|split].
  - apply nondecreasing_map_from, backoff_after_mono.
  - destruct n; [left | right; left]; reflexivity.
  - unfold schedule. induction (seq 0 n) as [|k ks IH]; simpl; constructor;
      [apply backoff_after_bounds | exact IH].
Qed.

Lemma in_step_on_schedule b o : in_step b o -> bursts_on_schedule o.
Proof. intros ((n & Hn & _) & Hc & Hp). split; [eauto | split; assumption]. Qed.

Lemma in_step_reset b last last' cur cl ps :
  in_step b (MkObserver last cur cl ps) ->
  in_step 1 (MkObserver last' [] (cl ++ [cur]) ps).
Proof.
  intros ((n & Hn & _) & Hc & Hp). simpl in *. split; [|split]; simpl.
  - exists O. split; reflexivity.
  - apply Forall_app. split; [assumption|]. constructor; [eauto | constructor].
  - assumption.
Qed.

Lemma in_step_sleep b last last' cur cl ps :
  in_step b (MkObserver last cur cl ps) ->
  in_step (Z.min (b * 2) max_reconnect_backoff) (MkObserver last' (cur ++ [b]) cl ps).
Proof.
  intros ((n & Hn & Hb) & Hc & Hp). simpl in *. split; [|split]; simpl; try assumption.
  exists (S n). rewrite schedule_S, Hn, Hb. split; reflexivity.
Qed.

Lemma in_step_pause b last last' cur cl ps :
  in_step b (MkObserver last cur cl ps) ->
  in_step b (MkObserver last' cur cl (ps ++ [1])).
Proof.
  intros (Hn & Hc & Hp). simpl in *. split; [|split]; simpl; try assumption.
  apply Forall_app. split; [assumption|]. constructor; [reflexivity | constructor].
Qed.

Lemma in_step_seen b last last' cur cl ps :
  in_step b (MkObserver last cur cl ps) -> in_step b (MkObserver last' cur cl ps).
Proof. intros (Hn & Hc & Hp). split; [|split]; simpl; assumption. Qed.

End BackoffFacts.

Create HintDb backoff.
#[export] Hint Resolve in_step_on_schedule in_step_reset in_step_sleep in_step_pause
  in_step_seen : backoff.

Ltac absurd_path :=
  repeat match goal with
  | H : negb _ = true |- _ => apply negb_true_iff in H
  | H : negb _ = false |- _ => apply negb_false_iff in H
  end;
  congruence.

Ltac exec_loop respond :=
  unfold Processor.loop_body, Processor.sleep_then_recover, Processor.await,
    Processor.try_except, Processor.perform, Processor.get_self,
    Processor.update_self, Processor.get_world, Processor.raise, mbind,
    Processor.M_bind, mret, Processor.M_ret;
  exec_simpl;
  repeat (exec_step respond; exec_simpl; try congruence).

Section Loop.
Import Processor Backoff.
Context {W : Type} (respond : W -> call -> W * answer) (stop_called : W -> bool)
  (settings : Settings).

(** One iteration keeps the observer in step with [reconnect_backoff]. *)
Lemma loop_body_in_step (b : Z) (s : pstate) (o : observer) :
  in_step b o ->
  match loop_body respond settings b s with
  | (_, t, Returns b') => in_step b' (observe_all o t)
  | (_, t, _) => bursts_on_schedule (observe_all o t)
  end.
Proof.
  intros Ho. destruct o as [last cur cl ps].
  exec_loop respond.
  all: try absurd_path.
  all: eauto 6 with backoff.
  Unshelve. all: exact None.
Qed.

Lemma observe_all_app o t1 t2 :
  observe_all o (t1 ++ t2) = observe_all (observe_all o t1) t2.
Proof. apply fold_left_app. Qed.

(** The loop keeps the bursts on schedule, however long it runs. *)
Lemma steady_state_loop_on_schedule (fuel : nat) (b : Z) (s : pstate) (o : observer) :
  in_step b o ->
  bursts_on_schedule
    (observe_all o (calls_of (steady_state_loop respond stop_called settings fuel b) s)).
Proof.
  revert b s o. induction fuel as [|fuel IH]; intros b s o Ho.
  - simpl. eauto with backoff.
  - unfold calls_of. cbn [steady_state_loop].
    unfold get_self, get_world, mbind, M_bind, mret, M_ret. cbn [fst snd].
    destruct (_running (self s) && negb (stop_called (world s))).
    + pose proof (loop_body_in_step b s o Ho) as Hbody.
      destruct (loop_body respond settings b s) as [[s1 t1] [b1| |]]; cbn [fst snd app].
      * specialize (IH b1 s1 (observe_all o t1) Hbody). unfold calls_of in IH.
        destruct (steady_state_loop respond stop_called settings fuel b1 s1) as [[s2 t2] r2].
        cbn [fst snd] in *. rewrite observe_all_app. exact IH.
      * exact Hbody.
      * exact Hbody.
    + simpl. eauto with backoff.
Qed.

Lemma sleeps_app t1 t2 : sleeps (t1 ++ t2) = (sleeps t1 ++ sleeps t2)%list.
Proof.
  induction t1 as [|[c a] t1 IH]; [reflexivity|].
  destruct c; simpl; rewrite ?IH; reflexivity.
Qed.

(** One iteration sleeps between 1 and 30 seconds, if at all, and keeps
    [reconnect_backoff] in that range. *)
Lemma loop_body_sleeps_bounded (b : Z) (s : pstate) :
  1 <= b <= max_reconnect_backoff ->
  match loop_body respond settings b s with
  | (_, t, Returns b') =>
      Forall (fun d => 1 <= d <= max_reconnect_backoff) (sleeps t) /\
      1 <= b' <= max_reconnect_backoff
  | (_, t, _) => Forall (fun d => 1 <= d <= max_reconnect_backoff) (sleeps t)
  end.
Proof.
  intros Hb. unfold max_reconnect_backoff in *.
  exec_loop respond.
  all: repeat first [ split | constructor ]; unfold max_reconnect_backoff; lia.
Qed.

Lemma steady_state_loop_sleeps_bounded (fuel : nat) (b : Z) (s : pstate) :
  1 <= b <= max_reconnect_backoff ->
  Forall (fun d => 1 <= d <= max_reconnect_backoff)
    (sleeps (calls_of (steady_state_loop respond stop_called settings fuel b) s)).
Proof.
  revert b s. induction fuel as [|fuel IH]; intros b s Hb.
  - constructor.
  - unfold calls_of. cbn [steady_state_loop].
    unfold get_self, get_world, mbind, M_bind, mret, M_ret. cbn [fst snd].
    destruct (_running (self s) && negb (stop_called (world s))); [|constructor].
    pose proof (loop_body_sleeps_bounded b s Hb) as Hbody.
    destruct (loop_body respond settings b s) as [[s1 t1] [b1| |]]; cbn [fst snd app];
      try exact Hbody.
    destruct Hbody as [Ht1 Hb1].
    specialize (IH b1 s1 Hb1). unfold calls_of in IH.
    destruct (steady_state_loop respond stop_called settings fuel b1 s1) as [[s2 t2] r2].
    cbn [fst snd] in *. rewrite sleeps_app. apply Forall_app. split; assumption.
Qed.

(** C5, as amended.  Between two resets of the backoff (a poll, a recovery or
    a re-creation of the groups that succeeds) the sleeps taken on
    connection-class errors last 1, 2, 4, 8, 16, 30, 30, ... seconds: they
    start at 1, never decrease and stay under the cap of 30; a reset makes the
    next of them 1 again.  The pause of the generic catch-all is one second
    each time and is not part of that sequence.  Every sleep of the loop, of
    either kind, lasts between 1 and 30 seconds. *)
Theorem backoff_bursts_on_schedule (fuel : nat) (s : pstate) :
  let t := calls_of (steady_state_loop respond stop_called settings fuel 1) s in
  Forall (fun ds => ds = schedule (length ds) /\ burst_ok ds) (bursts t) /\
  Forall (fun d => d = 1) (layer4_pauses t) /\
  Forall (fun d => 1 <= d <= max_reconnect_backoff) (sleeps t).
Proof.
  intros t.
  assert (Hstart : in_step 1 start_observer).
  { split; [|split]; simpl; [exists O; split; reflexivity | constructor | constructor]. }
  destruct (steady_state_loop_on_schedule fuel 1 s start_observer Hstart)
    as ((n & Hcur) & Hclosed & Hpauses).
  fold t in Hcur, Hclosed, Hpauses.
  assert (Hsched : forall ds, (exists k, ds = schedule k) ->
                     ds = schedule (length ds) /\ burst_ok ds).
  { intros ds (k & ->). rewrite schedule_length.
    split; [reflexivity | apply schedule_burst_ok]. }
  split; [|split; [exact Hpauses|]].
  - unfold bursts. apply Forall_app. split.
    + eapply Forall_impl; [exact Hclosed | exact Hsched].
    + constructor; [apply Hsched; eauto | constructor].
  - apply steady_state_loop_sleeps_bounded. unfold max_reconnect_backoff. lia.
Qed.
End Loop.

Section LoopRuns.
Import Processor Backoff Fixtures.

(** C5: two failed reconnections, a poll that raises something else and a
    cancellation make one run of failing iterations, with sleeps of 1, 2 and 1
    seconds. *)
Lemma pause_breaks_monotonicity :
  ~ Forall burst_ok (stated_bursts (calls_of (supervise 8) (state_with flaky_script running))).
Proof.
  intros H. vm_compute in H. apply Forall_cons_1 in H as [(Hmono & _) _].
  destruct Hmono as (_ & Hdecr & _). apply Hdecr. reflexivity.
Qed.

Lemma backoff_bursts_on_schedule_witness :
  let t := calls_of (supervise 12) (state_with eventful_script running) in
  sleeps t = [1; 2; 1; 4; 1; 2; 4; 1; 1] /\
  bursts t = [[1; 2; 4]; [1; 2; 4]; [1]; []] /\
  layer4_pauses t = [1; 1] /\
  Forall (fun ds => ds = schedule (length ds) /\ burst_ok ds) (bursts t) /\
  Forall (fun d => d = 1) (layer4_pauses t) /\
  Forall (fun d => 1 <= d <= max_reconnect_backoff) (sleeps t).
Proof.
  intros t.
  split; [vm_compute; reflexivity|]. split; [vm_compute; reflexivity|].
  split; [vm_compute; reflexivity|].
  exact (backoff_bursts_on_schedule scripted never_stopped test_settings 12
           (state_with eventful_script running)).
Defined.

End LoopRuns.

